(** * Ordne API: the schema registry, the generic create/list handlers and
      the graph endpoint of [main.py] and [schemas.py].

    The development has four parts:
    - [Py]: the Python values that travel through the handlers (documents,
      JSON payloads, responses) and the builtins the code applies to them
      ([str], truth value, [str.capitalize], [dict.get], item assignment,
      [isoformat], slicing); a text is held as its UTF-8 bytes, and
      [str.lower], which knows every script, is a parameter [lower] of the
      definitions that call it;
    - [Schemas]: the seven record types of [schemas.py], [list_models] and
      [schema_summary];
    - [Pydantic]: what the constructor call of a model class on a payload does with a field table;
    - [Main]: the handlers of [main.py] over a store whose two operations
      ([get_documents], [create_document]) are taken as parameters, in a
      state-and-exception monad. *)

From Stdlib Require Import String Ascii List ZArith Lia Bool DecimalString.
Import ListNotations.
Local Open Scope list_scope.
Local Open Scope string_scope.
Set Warnings "-register-all".

(* ===================================================================== *)
(** ** Python values and builtins *)
(* ===================================================================== *)
Module Py.

(** A naive [datetime.datetime] (what the Mongo driver hands back) and a
    [datetime.date]. *)
Record datetime := mk_datetime {
  dt_year : nat; dt_month : nat; dt_day : nat;
  dt_hour : nat; dt_minute : nat; dt_second : nat; dt_microsecond : nat }.

Record date := mk_date { d_year : nat; d_month : nat; d_day : nat }.

(** The values found in a stored document, a JSON payload or a response.
    A string is the UTF-8 bytes of the text; a dict is its list of items
    in insertion order. Floats are left out. *)
Inductive value : Type :=
| VNone
| VBool (b : bool)
| VInt (z : Z)
| VStr (s : string)
| VObjectId (hex : string)
| VDateTime (d : datetime)
| VDate (d : date)
| VList (l : list value)
| VDict (d : list (string * value)).

Definition dict := list (string * value).

(** *** Strings *)

Definition is_upper (c : ascii) : bool :=
  let n := nat_of_ascii c in (65 <=? n)%nat && (n <=? 90)%nat.

Definition is_lower (c : ascii) : bool :=
  let n := nat_of_ascii c in (97 <=? n)%nat && (n <=? 122)%nat.

Definition lower_char (c : ascii) : ascii :=
  if is_upper c then ascii_of_nat (nat_of_ascii c + 32) else c.

Definition upper_char (c : ascii) : ascii :=
  if is_lower c then ascii_of_nat (nat_of_ascii c - 32) else c.

(** A text of ASCII characters only. *)
Fixpoint is_ascii (s : string) : bool :=
  match s with
  | EmptyString => true
  | String c r => (nat_of_ascii c <? 128)%nat && is_ascii r
  end.

(** What [s.lower()] is on an ASCII text: the letters A to Z folded,
    every other character kept. On other texts [str.lower] follows the
    Unicode tables; the definitions that call it take it as the parameter
    [lower]. *)
Fixpoint ascii_lower (s : string) : string :=
  match s with
  | EmptyString => EmptyString
  | String c r => String (lower_char c) (ascii_lower r)
  end.

(** A [lower] to run examples with: [str.lower] on the texts made of
    ASCII characters and the Kelvin sign (U+212A, bytes 226 132 170),
    which lower-cases to the letter k. *)
Definition is_kelvin (a b c : ascii) : bool :=
  Nat.eqb (nat_of_ascii a) 226 && Nat.eqb (nat_of_ascii b) 132
  && Nat.eqb (nat_of_ascii c) 170.

Fixpoint sample_lower (s : string) : string :=
  match s with
  | EmptyString => EmptyString
  | String a s' =>
      match s' with
      | String b (String c r) =>
          if is_kelvin a b c then String "k" (sample_lower r)
          else String (lower_char a) (sample_lower s')
      | _ => String (lower_char a) (sample_lower s')
      end
  end.

(** [s.capitalize()] on an ASCII text, as the code calls it on its own
    collection names: first character upper-cased, the rest lower-cased. *)
Definition capitalize (s : string) : string :=
  match s with
  | EmptyString => EmptyString
  | String c r => String (upper_char c) (ascii_lower r)
  end.

(** A byte that continues a character of more than one byte. *)
Definition is_continuation (c : ascii) : bool :=
  let n := nat_of_ascii c in (128 <=? n)%nat && (n <? 192)%nat.

(** The number of characters of a text. *)
Fixpoint char_count (s : string) : nat :=
  match s with
  | EmptyString => 0
  | String c r => if is_continuation c then char_count r else S (char_count r)
  end.

(** [s[:n]]: the first [n] characters of the text, each with all its
    bytes. *)
Fixpoint take_chars (n : nat) (s : string) : string :=
  match s with
  | EmptyString => EmptyString
  | String c r =>
      if is_continuation c then String c (take_chars n r)
      else match n with
           | O => EmptyString
           | S k => String c (take_chars k r)
           end
  end.

Definition is_empty (s : string) : bool :=
  match s with EmptyString => true | _ => false end.

Fixpoint contains_char (c : ascii) (s : string) : bool :=
  match s with
  | EmptyString => false
  | String a r => Ascii.eqb a c || contains_char c r
  end.

Fixpoint join (sep : string) (l : list string) : string :=
  match l with
  | [] => EmptyString
  | [x] => x
  | x :: r => x ++ sep ++ join sep r
  end.

Fixpoint zeros (n : nat) : string :=
  match n with O => EmptyString | S k => String "0" (zeros k) end.

Definition str_nat (n : nat) : string := NilZero.string_of_uint (Nat.to_uint n).

Definition str_int (z : Z) : string := NilZero.string_of_int (Z.to_int z).

(** [%0wd] *)
Definition pad (w n : nat) : string :=
  let s := str_nat n in zeros (w - String.length s) ++ s.

(** *** [isoformat], [str] and [repr] of dates *)

Definition date_isoformat (d : date) : string :=
  pad 4 (d_year d) ++ "-" ++ pad 2 (d_month d) ++ "-" ++ pad 2 (d_day d).

Definition datetime_format (sep : string) (d : datetime) : string :=
  pad 4 (dt_year d) ++ "-" ++ pad 2 (dt_month d) ++ "-" ++ pad 2 (dt_day d)
  ++ sep
  ++ pad 2 (dt_hour d) ++ ":" ++ pad 2 (dt_minute d) ++ ":" ++ pad 2 (dt_second d)
  ++ (if Nat.eqb (dt_microsecond d) 0 then EmptyString
      else "." ++ pad 6 (dt_microsecond d)).

Definition datetime_isoformat : datetime -> string := datetime_format "T".

Definition datetime_repr (d : datetime) : string :=
  "datetime.datetime("
  ++ join ", " ([str_nat (dt_year d); str_nat (dt_month d); str_nat (dt_day d);
                 str_nat (dt_hour d); str_nat (dt_minute d)]
                ++ (if Nat.eqb (dt_microsecond d) 0
                    then (if Nat.eqb (dt_second d) 0 then [] else [str_nat (dt_second d)])
                    else [str_nat (dt_second d); str_nat (dt_microsecond d)]))%list
  ++ ")".

Definition date_repr (d : date) : string :=
  "datetime.date("
  ++ join ", " [str_nat (d_year d); str_nat (d_month d); str_nat (d_day d)]
  ++ ")".

(** *** [repr] of a string *)

Definition squote : ascii := ascii_of_nat 39.
Definition dquote : ascii := ascii_of_nat 34.
Definition backslash : ascii := ascii_of_nat 92.

Definition hex_digit (n : nat) : ascii :=
  if (n <? 10)%nat then ascii_of_nat (48 + n) else ascii_of_nat (87 + n).

Definition escape_char (q c : ascii) : string :=
  let n := nat_of_ascii c in
  if Ascii.eqb c backslash then String backslash (String backslash EmptyString)
  else if Ascii.eqb c q then String backslash (String q EmptyString)
  else if Nat.eqb n 10 then String backslash "n"
  else if Nat.eqb n 13 then String backslash "r"
  else if Nat.eqb n 9 then String backslash "t"
  else if (n <? 32)%nat || Nat.eqb n 127
       then String backslash
              (String "x" (String (hex_digit (n / 16)) (String (hex_digit (n mod 16)) EmptyString)))
  else String c EmptyString.

Fixpoint escape (q : ascii) (s : string) : string :=
  match s with
  | EmptyString => EmptyString
  | String c r => escape_char q c ++ escape q r
  end.

Definition str_repr (s : string) : string :=
  let q := if contains_char squote s && negb (contains_char dquote s)
           then dquote else squote in
  String q (escape q s ++ String q EmptyString).

(** *** [str(v)] and [repr(v)] *)

Fixpoint repr (v : value) : string :=
  match v with
  | VNone => "None"
  | VBool true => "True"
  | VBool false => "False"
  | VInt z => str_int z
  | VStr s => str_repr s
  | VObjectId h => "ObjectId('" ++ h ++ "')"
  | VDateTime d => datetime_repr d
  | VDate d => date_repr d
  | VList l => "[" ++ join ", " (map repr l) ++ "]"
  | VDict d =>
      "{" ++ join ", " (map (fun kv => let '(k, x) := kv in str_repr k ++ ": " ++ repr x) d) ++ "}"
  end.

Definition py_str (v : value) : string :=
  match v with
  | VStr s => s
  | VObjectId h => h
  | VDateTime d => datetime_format " " d
  | VDate d => date_isoformat d
  | _ => repr v
  end.

(** Truth value of [v], as tested by [not v] and [v or w]. *)
Definition truthy (v : value) : bool :=
  match v with
  | VNone => false
  | VBool b => b
  | VInt z => negb (Z.eqb z 0)
  | VStr s => negb (is_empty s)
  | VObjectId _ => true
  | VDateTime _ => true
  | VDate _ => true
  | VList l => match l with [] => false | _ => true end
  | VDict d => match d with [] => false | _ => true end
  end.

(** [a or b] *)
Definition py_or (a b : value) : value := if truthy a then a else b.

(** [isinstance(v, (datetime.datetime, datetime.date))] followed by
    [v.isoformat()]: [Some] of the text for a date or a datetime. *)
Definition isoformat (v : value) : option string :=
  match v with
  | VDateTime d => Some (datetime_isoformat d)
  | VDate d => Some (date_isoformat d)
  | _ => None
  end.

(** *** Dicts: insertion-ordered, keys unique *)

Section Dict.
Context {A : Type}.

(** [k in d] and [d[k]] *)
Fixpoint lookup (k : string) (d : list (string * A)) : option A :=
  match d with
  | [] => None
  | (k', v) :: r => if String.eqb k' k then Some v else lookup k r
  end.

(** [d[k] = v]: replaces the value of an existing key in place, appends
    a new key at the end. *)
Fixpoint setitem (k : string) (v : A) (d : list (string * A)) : list (string * A) :=
  match d with
  | [] => [(k, v)]
  | (k', v') :: r =>
      if String.eqb k' k then (k', v) :: r else (k', v') :: setitem k v r
  end.

Definition keys (d : list (string * A)) : list string := map fst d.
End Dict.

(** [d.get(k, default)] *)
Definition get_default (d : dict) (k : string) (default : value) : value :=
  match lookup k d with Some v => v | None => default end.

(** [d.get(k)] *)
Definition get (d : dict) (k : string) : value := get_default d k VNone.

End Py.

Import Py.

(* ===================================================================== *)
(** ** [schemas.py]: the record types and the registry *)
(* ===================================================================== *)
Module Schemas.

(** The annotations used by the seven models. *)
Inductive annotation_t : Type :=
| TStr
| TBool
| TInt
| TEmailStr
| TLiteral (choices : list string)
| TOptional (a : annotation_t)
| TList (a : annotation_t).

(** [f.default]: the declared default, or pydantic's undefined marker
    (written [...] in [Field(...)], and also what a field with a
    [default_factory] carries). *)
Inductive default_t : Type :=
| Undefined
| Default (v : value).

(** The object [schema_summary] expects under [f.field_info]: it reads
    its [description]. *)
Record field_info_t := mk_field_info {
  info_description : option string }.

(** A value [f] of [model_fields], with the attributes [schema_summary]
    and the validator name: [f.annotation], [f.default], the default
    factory (as the value it builds: [list] builds the empty list),
    [f.description], the [ge] bound, and [f.field_info], which is [None]
    on a descriptor that has no such attribute. *)
Record FieldInfo := mk_field {
  annotation : annotation_t;
  default : default_t;
  default_factory : option value;
  description : option string;
  field_info : option field_info_t;
  ge : option Z }.

(** Raised by the access to an attribute the object does not have. *)
Inductive attribute_error : Type :=
| AttributeError (type_name attribute : string).

(** [f.is_required()] *)
Definition is_required (f : FieldInfo) : bool :=
  match default f, default_factory f with
  | Undefined, None => true
  | _, _ => false
  end.

(** A model class: its name and [model_fields], in declaration order. *)
Record model := mk_model {
  model_name : string;
  model_fields : list (string * FieldInfo) }.

(** [Field(default, description=...)] and its variants. What pydantic
    builds is a [FieldInfo]: its attributes are fixed by [__slots__], which
    hold [description] and no [field_info]. *)
Definition Field (d : default_t) (descr : option string) (a : annotation_t) : FieldInfo :=
  mk_field a d None descr None None.
Definition Field_factory (v : value) (descr : option string) (a : annotation_t) : FieldInfo :=
  mk_field a Undefined (Some v) descr None None.
Definition Field_ge (d : default_t) (bound : Z) (a : annotation_t) : FieldInfo :=
  mk_field a d None None None (Some bound).

Definition required := Undefined.
Definition none := Default VNone.
Definition level3 := TLiteral ["low"; "medium"; "high"].

Definition Application : model := mk_model "Application" [
  ("name", Field required (Some "Application name") TStr);
  ("description", Field none (Some "What it does in the business context") (TOptional TStr));
  ("owner", Field none (Some "Business owner (person/team)") (TOptional TStr));
  ("technical_owner", Field none (Some "Technical owner (person/team)") (TOptional TStr));
  ("vendor", Field none (Some "Vendor name if SaaS or purchased software") (TOptional TStr));
  ("criticality", Field (Default (VStr "medium")) (Some "Business criticality") level3);
  ("lifecycle", Field (Default (VStr "active")) (Some "Lifecycle stage")
                  (TLiteral ["ideation"; "active"; "sunset"]));
  ("gdpr_data", Field (Default (VBool false)) (Some "Processes GDPR personal data") TBool);
  ("tags", Field_factory (VList []) (Some "Free-form labels") (TList TStr)) ].

Definition Process : model := mk_model "Process" [
  ("name", Field required (Some "Business process name") TStr);
  ("description", Field none None (TOptional TStr));
  ("owner", Field none None (TOptional TStr));
  ("level", Field (Default (VStr "L2")) (Some "Process decomposition level")
              (TOptional (TLiteral ["L1"; "L2"; "L3"])));
  ("related_applications",
     Field_factory (VList []) (Some "Linked application IDs or names") (TList TStr)) ].

Definition Role : model := mk_model "Role" [
  ("name", Field required (Some "Role title (e.g., Sales Rep)") TStr);
  ("email", Field none (Some "Contact email") (TOptional TEmailStr));
  ("department", Field none None (TOptional TStr));
  ("responsibilities", Field_factory (VList []) None (TList TStr)) ].

Definition DataAsset : model := mk_model "DataAsset" [
  ("name", Field required (Some "Data asset name (e.g., Customer PII)") TStr);
  ("category", Field (Default (VStr "Other")) None
                 (TLiteral ["PII"; "Financial"; "Operational"; "Other"]));
  ("description", Field none None (TOptional TStr));
  ("retention_period_months", Field_ge none 0 (TOptional TInt));
  ("gdpr_basis", Field none None
                   (TOptional (TLiteral ["consent"; "contract"; "legal_obligation";
                                         "legitimate_interest"; "vital_interest";
                                         "public_task"]))) ].

Definition Risk : model := mk_model "Risk" [
  ("title", Field required (Some "Risk title") TStr);
  ("description", Field none None (TOptional TStr));
  ("likelihood", Field (Default (VStr "low")) None level3);
  ("impact", Field (Default (VStr "low")) None level3);
  ("owner", Field none None (TOptional TStr));
  ("related_assets", Field_factory (VList []) None (TList TStr)) ].

Definition ComplianceRequirement : model := mk_model "ComplianceRequirement" [
  ("framework", Field (Default (VStr "GDPR")) None
                  (TLiteral ["GDPR"; "ISO27001"; "SOC2"; "Other"]));
  ("control_id", Field none (Some "Control identifier (e.g., A.5.1)") (TOptional TStr));
  ("title", Field required None TStr);
  ("description", Field none None (TOptional TStr));
  ("applicable", Field (Default (VBool true)) None TBool) ].

Definition Relationship : model := mk_model "Relationship" [
  ("source_id", Field required None TStr);
  ("source_type", Field required None TStr);
  ("target_id", Field required None TStr);
  ("target_type", Field required None TStr);
  ("kind", Field required None TStr);
  ("description", Field none None (TOptional TStr)) ].

(** What [inspect.getmembers] finds in the module. *)
Inductive member : Type :=
| BaseModelClass                (* pydantic's [BaseModel] itself *)
| ModelClass (m : model)        (* a subclass of [BaseModel] *)
| OtherClass                    (* a class that is no model *)
| NotAClass.                    (* functions, typing forms, module attributes *)

(** [inspect.getmembers(current_module)]: the module's names, sorted. *)
Definition getmembers : list (string * member) := [
  ("Application", ModelClass Application);
  ("BaseModel", BaseModelClass);
  ("ComplianceRequirement", ModelClass ComplianceRequirement);
  ("DataAsset", ModelClass DataAsset);
  ("EmailStr", OtherClass);
  ("Field", NotAClass);
  ("List", NotAClass);
  ("Literal", NotAClass);
  ("Optional", NotAClass);
  ("Process", ModelClass Process);
  ("Relationship", ModelClass Relationship);
  ("Risk", ModelClass Risk);
  ("Role", ModelClass Role);
  ("__builtins__", NotAClass);
  ("__cached__", NotAClass);
  ("__doc__", NotAClass);
  ("__file__", NotAClass);
  ("__loader__", NotAClass);
  ("__name__", NotAClass);
  ("__package__", NotAClass);
  ("__spec__", NotAClass);
  ("list_models", NotAClass);
  ("schema_summary", NotAClass) ].

(** [list_models]: name -> class, for the members that are classes,
    subclasses of [BaseModel] and not [BaseModel] itself. *)
Definition list_models_from (members : list (string * member)) : list (string * model) :=
  fold_left
    (fun models nm =>
       match snd nm with
       | ModelClass m => setitem (fst nm) m models
       | _ => models
       end)
    members [].

Definition list_models : list (string * model) := list_models_from getmembers.

(** [str(f.annotation)] *)
Fixpoint type_repr (a : annotation_t) : string :=
  match a with
  | TStr => "str"
  | TBool => "bool"
  | TInt => "int"
  | TEmailStr => "pydantic.networks.EmailStr"
  | TLiteral l => "typing.Literal[" ++ join ", " (map str_repr l) ++ "]"
  | TOptional b => "typing.Optional[" ++ type_repr b ++ "]"
  | TList b => "typing.List[" ++ type_repr b ++ "]"
  end.

Definition str_annotation (a : annotation_t) : string :=
  match a with
  | TStr | TBool | TInt | TEmailStr => "<class '" ++ type_repr a ++ "'>"
  | _ => type_repr a
  end.

(** One field's entry of the summary. *)
Record field_summary := mk_field_summary {
  fs_type : string;
  fs_required : bool;
  fs_default : default_t;
  fs_description : option string }.

(** One model's entry of the summary. *)
Record model_summary := mk_model_summary {
  ms_collection : string;
  ms_fields : list (string * field_summary) }.

(** One field's entry: the four values of the dict display, in order;
    the last one reads [f.field_info.description], and raises when [f] has
    no [field_info]. *)
Definition summarize_field (f : FieldInfo) : field_summary + attribute_error :=
  let type_ := str_annotation (annotation f) in
  let required_ := is_required f in
  let default_ := match default f with Default VNone => Default VNone | d => d end in
  match field_info f with
  | Some info => inl (mk_field_summary type_ required_ default_ (info_description info))
  | None => inr (AttributeError "FieldInfo" "field_info")
  end.

(** The dict comprehension over [model.model_fields.items()]: it stops at
    the first entry that raises. *)
Fixpoint summarize_fields_from (out : list (string * field_summary))
    (fields : list (string * FieldInfo))
  : list (string * field_summary) + attribute_error :=
  match fields with
  | [] => inl out
  | (f_name, f) :: rest =>
      match summarize_field f with
      | inl entry => summarize_fields_from (setitem f_name entry out) rest
      | inr e => inr e
      end
  end.

Definition summarize_fields (fields : list (string * FieldInfo))
  : list (string * field_summary) + attribute_error :=
  summarize_fields_from [] fields.

Section Summary.

(** [str.lower] *)
Variable lower : string -> string.

(** The loop of [schema_summary] over the items of [list_models()]. *)
Fixpoint schema_summary_from (out : list (string * model_summary))
    (models : list (string * model))
  : list (string * model_summary) + attribute_error :=
  match models with
  | [] => inl out
  | (name, m) :: rest =>
      match summarize_fields (model_fields m) with
      | inl fields =>
          schema_summary_from (setitem name (mk_model_summary (lower name) fields) out) rest
      | inr e => inr e
      end
  end.

Definition schema_summary_of (models : list (string * model))
  : list (string * model_summary) + attribute_error :=
  schema_summary_from [] models.

Definition schema_summary : list (string * model_summary) + attribute_error :=
  schema_summary_of list_models.

End Summary.

End Schemas.

Import Schemas.

(* ===================================================================== *)
(** ** Model construction: the call of a model class on a payload *)
(* ===================================================================== *)
Module Pydantic.

(** What went wrong with one field. *)
Inductive field_error : Type :=
| Missing
| Invalid (input : value).

(** The exception raised by a model class: the class name and the
    failing fields, in declaration order. *)
Record ValidationError := mk_error {
  ve_title : string;
  ve_errors : list (string * field_error) }.

(** A model object: its class and its field values, in declaration
    order. *)
Record instance := mk_instance {
  inst_class : string;
  inst_fields : dict }.

Section Validator.

(** The check and coercion of one supplied value against a field's
    annotation and constraints; [None] when the value is refused. The
    models declare no validator of their own, so every field is checked
    on its own. *)
Variable validate_value : FieldInfo -> value -> option value.

(** One field: a supplied value is checked; an absent one takes the
    factory's value or the declared default, and is an error when the
    field is required. *)
Definition validate_field (data : dict) (name : string) (f : FieldInfo)
  : value + field_error :=
  match lookup name data with
  | Some v =>
      match validate_value f v with
      | Some v' => inl v'
      | None => inr (Invalid v)
      end
  | None =>
      match default_factory f with
      | Some v => inl v
      | None =>
          match default f with
          | Default v => inl v
          | Undefined => inr Missing
          end
      end
  end.

(** All declared fields, in order; keys of the payload that name no
    declared field are never looked at (the classes set no [extra]
    policy, and the default one ignores them). *)
Fixpoint validate_fields (fields : list (string * FieldInfo)) (data : dict)
  : dict * list (string * field_error) :=
  match fields with
  | [] => ([], [])
  | (name, f) :: rest =>
      let (vals, errs) := validate_fields rest data in
      match validate_field data name f with
      | inl v => ((name, v) :: vals, errs)
      | inr e => (vals, (name, e) :: errs)
      end
  end.

(** The constructor call of model class [m] on the payload [data]. *)
Definition model_init (m : model) (data : dict) : instance + ValidationError :=
  match validate_fields (model_fields m) data with
  | (vals, []) => inl (mk_instance (model_name m) vals)
  | (_, errs) => inr (mk_error (model_name m) errs)
  end.

End Validator.

(** A strict checker, to run the models on examples: each annotation
    accepts the values of its own type, without coercion. *)
Fixpoint check_annotation (bound : option Z) (a : annotation_t) (v : value) : bool :=
  match a, v with
  | TStr, VStr _ => true
  | TBool, VBool _ => true
  | TInt, VInt z => match bound with Some b => (b <=? z)%Z | None => true end
  | TEmailStr, VStr s => contains_char "@" s
  | TLiteral l, VStr s => existsb (String.eqb s) l
  | TOptional _, VNone => true
  | TOptional b, _ => check_annotation bound b v
  | TList b, VList l => forallb (check_annotation bound b) l
  | _, _ => false
  end.

Definition strict_value (f : FieldInfo) (v : value) : option value :=
  if check_annotation (ge f) (annotation f) v then Some v else None.

End Pydantic.

Import Pydantic.

(* ===================================================================== *)
(** ** [main.py]: the handlers *)
(* ===================================================================== *)
Module Main.

(** The exceptions that cross the handlers. *)
Inductive exn : Type :=
| HTTPException (status_code : Z) (detail : string)
| StoreUnavailable
| StoreWriteError
| OtherException (msg : string).

Inductive result (A : Type) : Type :=
| Ok (a : A)
| Raise (e : exn).
Arguments Ok {A} a.
Arguments Raise {A} e.

(** A computation over the store: it returns or raises, and leaves a
    store either way. *)
Definition M (store A : Type) : Type := store -> result A * store.

Definition ret {store A} (a : A) : M store A := fun s => (Ok a, s).

Definition raise {store A} (e : exn) : M store A := fun s => (Raise e, s).

Definition bind {store A B} (m : M store A) (k : A -> M store B) : M store B :=
  fun s =>
    match m s with
    | (Ok a, s') => k a s'
    | (Raise e, s') => (Raise e, s')
    end.

(** [try: m  except Exception: h] *)
Definition try_except {store A} (m : M store A) (h : exn -> M store A) : M store A :=
  fun s =>
    match m s with
    | (Ok a, s') => (Ok a, s')
    | (Raise e, s') => h e s'
    end.

(** [for x in l: acc = body acc x] *)
Fixpoint for_each {store A B} (body : B -> A -> M store B) (l : list A) (acc : B)
  : M store B :=
  match l with
  | [] => ret acc
  | x :: r => bind (body acc x) (for_each body r)
  end.

Notation "x <- m ;; k" := (bind m (fun x => k))
  (at level 61, m at next level, right associativity).

Section Runtime.

(** [str.lower], the runtime's: it folds the letters of every script, on
    an ASCII text the letters A to Z. *)
Variable lower : string -> string.

(** [_model_for_collection]: the first model whose lower-cased name is
    the lower-cased collection name. *)
Fixpoint model_for_collection_in (models : list (string * model)) (collection : string)
  : option model :=
  match models with
  | [] => None
  | (name, m) :: rest =>
      if String.eqb (lower name) (lower collection) then Some m
      else model_for_collection_in rest collection
  end.

Definition _model_for_collection (collection : string) : option model :=
  model_for_collection_in list_models collection.

Definition unknown_collection (collection : string) : exn :=
  HTTPException 404 ("Unknown collection '" ++ collection ++ "'").

(** [serialize], the local function of [get_collection_documents]: one
    step of its loop, then the loop from the empty dict. The [try] around
    the date test guards nothing that can raise on these values. *)
Definition serialize_item (out : dict) (kv : string * value) : dict :=
  let (k, v) := kv in
  if String.eqb k "_id" then setitem "_id" (VStr (py_str v)) out
  else match isoformat v with
       | Some text => setitem k (VStr text) out
       | None => setitem k v out
       end.

Definition serialize (doc : dict) : dict := fold_left serialize_item doc [].

(** One step of the node loop of [get_graph]: the node appended to
    [nodes] and the entry set in [id_map]. *)
Definition node_of (c : string) (d : dict) : value :=
  VDict [("id", VStr (py_str (get d "_id")));
         ("type", VStr c);
         ("label", py_or (py_or (get d "name") (get d "title")) (VStr (capitalize c)))].

Definition add_node (c : string) (acc : list value * dict) (d : dict) : list value * dict :=
  let (nodes, id_map) := acc in
  ((nodes ++ [node_of c d])%list, setitem (py_str (get d "_id")) (VBool true) id_map).

(** One step of the edge loop of [get_graph]. *)
Definition edge_of (r : dict) : value :=
  VDict [("source", VStr (py_str (get r "source_id")));
         ("target", VStr (py_str (get r "target_id")));
         ("kind", get_default r "kind" (VStr "rel"));
         ("id", VStr (py_str (get r "_id")))].

Definition add_edge (edges : list value) (r : dict) : list value :=
  let src := py_str (get r "source_id") in
  let tgt := py_str (get r "target_id") in
  if is_empty src || is_empty tgt then edges
  else (edges ++ [edge_of r])%list.

Definition core : list string := ["application"; "process"; "role"; "dataasset"; "risk"].

Section Handlers.

(** The store and the two functions imported from the [database]
    module, which is not part of the sources at hand: they are
    parameters, and may return, raise and change the store at will. *)
Variable store : Type.
Variable get_documents : string -> option Z -> M store (list dict).
Variable create_document : string -> instance -> M store value.

(** The field checker of the model classes, and [str(e)] of the
    exception they raise. *)
Variable validate_value : FieldInfo -> value -> option value.
Variable str_error : ValidationError -> string.

(** [GET /documents/{collection}]; the route supplies [Some 100] for
    [limit] when the query has none. *)
Definition get_collection_documents (collection : string) (limit : option Z)
  : M store value :=
  match _model_for_collection collection with
  | None => raise (unknown_collection collection)
  | Some _ =>
      docs <- get_documents (lower collection) limit ;;
      ret (VDict [("items", VList (map (fun d => VDict (serialize d)) docs))])
  end.

(** [POST /documents/{collection}] with body [{"data": data}]. *)
Definition create_collection_document (collection : string) (data : dict)
  : M store value :=
  match _model_for_collection collection with
  | None => raise (unknown_collection collection)
  | Some model_cls =>
      match model_init validate_value model_cls data with
      | inr e => raise (HTTPException 422 ("Validation error: " ++ str_error e))
      | inl validated =>
          inserted_id <- create_document (lower collection) validated ;;
          ret (VDict [("_id", inserted_id)])
      end
  end.

(** The body of the loop over [core]: fetch, then one node per record;
    any exception is swallowed. *)
Definition fetch_nodes (acc : list value * dict) (c : string)
  : M store (list value * dict) :=
  try_except
    (docs <- get_documents c (Some 100%Z) ;;
     ret (fold_left (add_node c) docs acc))
    (fun _ => ret acc).

Definition fetch_edges : M store (list value) :=
  try_except
    (rels <- get_documents "relationship" (Some 500%Z) ;;
     ret (fold_left add_edge rels []))
    (fun _ => ret []).

(** [GET /graph] *)
Definition get_graph : M store value :=
  acc <- for_each fetch_nodes core ([], []) ;;
  edges <- fetch_edges ;;
  ret (VDict [("nodes", VList (fst acc)); ("edges", VList edges)]).

End Handlers.

(** [GET /schema]: the summary, or the exception [schema_summary] raises,
    with the text Python gives it. *)
Definition get_schema {store : Type} : M store (list (string * model_summary)) :=
  match schema_summary lower with
  | inl out => ret out
  | inr (AttributeError type_name attribute) =>
      raise (OtherException
               ("'" ++ type_name ++ "' object has no attribute '" ++ attribute ++ "'"))
  end.

(** [GET /collections] *)
Definition list_collections : value :=
  VDict [("collections", VList (map (fun name => VStr (lower name)) (keys list_models)))].

End Runtime.

(** The handle [db] imported from the [database] module, as
    [test_database] uses it: [db.name] when the handle has the attribute,
    and the call [db.list_collection_names()], which returns the names or
    raises. *)
Record database (store : Type) := mk_database {
  db_name : option value;
  list_collection_names : M store (list string) }.
Arguments mk_database {store} db_name list_collection_names.
Arguments db_name {store} d.
Arguments list_collection_names {store} d.

Section Diagnostics.

(** [db] is [None] when no connection was configured; [getenv] is
    [os.getenv]; [str_exn] is [str(e)] of a caught exception, of which
    [str(e)[:50]] keeps the first fifty characters. *)
Variable store : Type.
Variable db : option (database store).
Variable getenv : string -> option string.
Variable str_exn : exn -> string.

Definition initial_response : dict :=
  [("backend", VStr "✅ Running");
   ("database", VStr "❌ Not Available");
   ("database_url", VNone);
   ("database_name", VNone);
   ("connection_status", VStr "Not Connected");
   ("collections", VList [])].

Definition connected_but_error : string := "⚠️  Connected but Error: ".

(** The branch [db is not None]: four assignments, then the listing
    under its own [try]. *)
Definition probe (d : database store) (response : dict) : M store dict :=
  let response := setitem "database" (VStr "✅ Available") response in
  let response := setitem "database_url" (VStr "✅ Configured") response in
  let response :=
    setitem "database_name"
      (match db_name d with Some n => n | None => VStr "✅ Connected" end) response in
  let response := setitem "connection_status" (VStr "Connected") response in
  try_except
    (collections <- list_collection_names d ;;
     let response :=
       setitem "collections" (VList (map VStr (firstn 10 collections))) response in
     ret (setitem "database" (VStr "✅ Connected & Working") response))
    (fun e =>
       ret (setitem "database"
              (VStr (connected_but_error ++ take_chars 50 (str_exn e))) response)).

(** [X if os.getenv(name) else Y]: an unset variable and an empty one
    both count as false. *)
Definition env_flag (name : string) : value :=
  match getenv name with
  | Some (String _ _) => VStr "✅ Set"
  | _ => VStr "❌ Not Set"
  end.

(** [GET /test]. Nothing in the outer [try] raises outside the inner one,
    which catches every exception; the outer handler is kept as written. *)
Definition test_database : M store value :=
  response <-
    try_except
      (match db with
       | Some d => probe d initial_response
       | None =>
           ret (setitem "database" (VStr "⚠️  Available but not initialized") initial_response)
       end)
      (fun e =>
         ret (setitem "database" (VStr ("❌ Error: " ++ take_chars 50 (str_exn e)))
                initial_response)) ;;
  let response := setitem "database_url" (env_flag "DATABASE_URL") response in
  let response := setitem "database_name" (env_flag "DATABASE_NAME") response in
  ret (VDict response).

End Diagnostics.

End Main.

Import Main.

(* ===================================================================== *)
(** ** A store to run the handlers on *)
(* ===================================================================== *)
Module Store.

(** Modelled from the spec: the [database] module ([get_documents],
    [create_document]) is missing from the sources; this is the Store
    Adapter of the specification. [find] returns the records of a
    collection in stored order, cut at the limit, an empty sequence for a
    collection that does not exist, and fails with [StoreUnavailable] when
    the store cannot be reached; [insert] appends the record under a fresh
    identifier and returns that identifier. *)
Record db := mk_db {
  reachable : bool;
  collections : list (string * list dict);
  inserted : nat }.

Definition records (c : string) (s : db) : list dict :=
  match lookup c (collections s) with Some l => l | None => [] end.

Definition find (c : string) (limit : option Z) : M db (list dict) :=
  fun s =>
    if reachable s
    then (Ok (match limit with
              | Some n => firstn (Z.to_nat n) (records c s)
              | None => records c s
              end), s)
    else (Raise StoreUnavailable, s).

Definition insert (c : string) (record : instance) : M db value :=
  fun s =>
    if reachable s
    then let id := "id" ++ str_nat (inserted s) in
         (Ok (VStr id),
          mk_db true
                (setitem c (records c s ++ [(("_id", VObjectId id) :: inst_fields record)])%list
                         (collections s))
                (S (inserted s)))
    else (Raise StoreUnavailable, s).

Definition empty : db := mk_db true [] 0.
Definition down : db := mk_db false [] 0.

(** [str(e)] of a validation error, for the examples: the class and the
    failing field names. *)
Definition error_text (e : ValidationError) : string :=
  ve_title e ++ ": " ++ join ", " (keys (ve_errors e)).

Definition list_documents := get_collection_documents sample_lower db find.
Definition create := create_collection_document sample_lower db insert strict_value error_text.
Definition graph := get_graph db find.

End Store.


(* ===================================================================== *)
(** ** The specification's words, to compare the code with *)
(* ===================================================================== *)
Module Spec.

(** List, one field of a raw record: the identifier field becomes [_id]
    with the string form of its value, a date or time value becomes its
    ISO-8601 text, any other field passes through. *)
Definition serialized_field (kv : string * value) : string * value :=
  let (k, v) := kv in
  if String.eqb k "_id" then ("_id", VStr (py_str v))
  else match isoformat v with
       | Some text => (k, VStr text)
       | None => (k, v)
       end.

Definition serialized_record (d : dict) : value := VDict (map serialized_field d).

(** Two characters that are the same letter, whatever their case. *)
Definition same_letter (a b : ascii) : bool :=
  Ascii.eqb a b
  || (is_upper a && Nat.eqb (nat_of_ascii b) (nat_of_ascii a + 32))
  || (is_upper b && Nat.eqb (nat_of_ascii a) (nat_of_ascii b + 32)).

(** Two strings equal up to letter case: the same length, and the same
    letter at every position. *)
Fixpoint eq_nocase (s t : string) : bool :=
  match s, t with
  | EmptyString, EmptyString => true
  | String a s', String b t' => same_letter a b && eq_nocase s' t'
  | _, _ => false
  end.

(** The keys of a payload that name a declared field of [m]. *)
Definition declared_part (m : model) (data : dict) : dict :=
  filter (fun kv => existsb (String.eqb (fst kv)) (keys (model_fields m))) data.

(** The enum fields whose defaults the models declare: class, field,
    default. *)
Definition enum_defaults : list (model * string * string) :=
  [(Risk, "likelihood", "low"); (Risk, "impact", "low");
   (ComplianceRequirement, "framework", "GDPR"); (Process, "level", "L2")].

(** Graph, the label of a node as the claim words it: the [name] field
    when the record has one, else the [title] field when it has one, else
    the capitalized collection name. *)
Definition claimed_label (c : string) (d : dict) : value :=
  match lookup "name" d with
  | Some v => v
  | None =>
      match lookup "title" d with
      | Some v => v
      | None => VStr (capitalize c)
      end
  end.

(** The value of field [k] when the record has the field and the value
    counts as true (is not [None], empty, zero or [False]). *)
Definition usable (k : string) (d : dict) : option value :=
  match lookup k d with
  | Some v => if truthy v then Some v else None
  | None => None
  end.

(** Graph, the label of a node: the usable [name], else the usable
    [title], else the capitalized collection name. *)
Definition label (c : string) (d : dict) : value :=
  match usable "name" d with
  | Some v => v
  | None =>
      match usable "title" d with
      | Some v => v
      | None => VStr (capitalize c)
      end
  end.

Definition node (c : string) (d : dict) : value :=
  VDict [("id", VStr (py_str (get d "_id"))); ("type", VStr c); ("label", label c d)].

Section Graph.

Variable store : Type.
Variable get_documents : string -> option Z -> M store (list dict).

(** Graph, the nodes: collection by collection, one node per record of
    a collection that could be read, nothing for one that could not; with
    the store each read leaves. *)
Fixpoint graph_nodes (cs : list string) (s : store) : list value * store :=
  match cs with
  | [] => ([], s)
  | c :: rest =>
      match get_documents c (Some 100%Z) s with
      | (Ok docs, s') =>
          let (nodes, s'') := graph_nodes rest s' in
          ((map (node_of c) docs ++ nodes)%list, s'')
      | (Raise _, s') => graph_nodes rest s'
      end
  end.

(** Graph, the edges: those of the relationship records read, none when
    the read fails. *)
Definition graph_edges (s : store) : list value * store :=
  match get_documents "relationship" (Some 500%Z) s with
  | (Ok rels, s') => (fold_left add_edge rels [], s')
  | (Raise _, s') => ([], s')
  end.

End Graph.

(** The names of a list are pairwise distinct. *)
Fixpoint distinct (l : list string) : bool :=
  match l with
  | [] => true
  | x :: r => negb (existsb (String.eqb x) r) && distinct r
  end.

(** Every character, to settle facts on characters by enumeration. *)
Definition all_ascii : list ascii := map ascii_of_nat (seq 0 256).

(** A relationship record both of whose endpoints have a non-empty
    string form. *)
Definition has_endpoints (r : dict) : bool :=
  negb (is_empty (py_str (get r "source_id")))
  && negb (is_empty (py_str (get r "target_id"))).

(** The members of a module that are model classes, under their names,
    in the order of the members. *)
Definition model_members (members : list (string * member)) : list (string * model) :=
  flat_map (fun nm => match snd nm with
                      | ModelClass m => [(fst nm, m)]
                      | _ => []
                      end) members.

(** The store collections of the registered types. *)
Definition registered_collections (lower : string -> string) : list string :=
  map lower (keys list_models).

(** What is known of [str.lower] without the Unicode tables: on an ASCII
    text it folds the letters A to Z and keeps the rest. *)
Definition folds_ascii (lower : string -> string) : Prop :=
  forall s : string, is_ascii s = true -> lower s = ascii_lower s.

(** The collections [get_graph] reads. *)
Definition graph_collections : list string := (core ++ ["relationship"])%list.

(** A date or a datetime. *)
Definition is_date (v : value) : bool :=
  match v with
  | VDateTime _ | VDate _ => true
  | _ => false
  end.

(** The keys of the diagnostic response, in order. *)
Definition diagnostic_keys : list string :=
  ["backend"; "database"; "database_url"; "database_name"; "connection_status";
   "collections"].

End Spec.

(* ===================================================================== *)
(** ** Sample records and stores *)
(* ===================================================================== *)
Module Sample.

Definition risk_record : dict :=
  [("_id", VObjectId "65f0c0ffee01"); ("title", VStr "X"); ("likelihood", VStr "high");
   ("impact", VStr "low"); ("related_assets", VList [VStr "a1"]);
   ("created_at", VDateTime (mk_datetime 2024 3 9 7 5 0 0))].

(** A record with a date, and a datetime that has microseconds. *)
Definition review_record : dict :=
  [("_id", VObjectId "65f0c0ffee02"); ("title", VStr "Y");
   ("review_date", VDate (mk_date 2024 11 5));
   ("reviewed_at", VDateTime (mk_datetime 987 1 2 3 4 5 60))].

Definition named_application : dict :=
  [("_id", VObjectId "a1"); ("name", VStr "Payroll"); ("criticality", VStr "high")].

(** An application whose name is the empty string, which the model
    accepts for a [str] field. *)
Definition unnamed_application : dict :=
  [("_id", VObjectId "a2"); ("name", VStr EmptyString)].

Definition uses_relationship : dict :=
  [("_id", VObjectId "r1"); ("source_id", VStr "a1"); ("target_id", VStr "a2")].

(** A relationship record without [source_id]. *)
Definition sourceless_relationship : dict :=
  [("_id", VObjectId "r2"); ("target_id", VStr "a1"); ("kind", VStr "uses")].

(** A relationship record whose [source_id] is the empty string. *)
Definition blank_source_relationship : dict :=
  [("_id", VObjectId "r3"); ("source_id", VStr EmptyString); ("target_id", VStr "a1");
   ("kind", VStr "uses")].

Definition populated : Store.db :=
  Store.mk_db true
    [("application", [named_application; unnamed_application]);
     ("risk", [risk_record]);
     ("relationship", [uses_relationship])]
    0.

Definition with_sourceless : Store.db :=
  Store.mk_db true
    [("application", [named_application]);
     ("relationship", [blank_source_relationship; sourceless_relationship])]
    0.

Definition dated : Store.db :=
  Store.mk_db true [("risk", [risk_record; review_record])] 0.

(** The path segment RIS followed by the Kelvin sign, which [str.lower]
    turns into the text risk. *)
Definition kelvin_risk : string :=
  "RIS" ++ String (ascii_of_nat 226) (String (ascii_of_nat 132)
             (String (ascii_of_nat 170) EmptyString)).

(** Sixty times the letter e with an acute accent, two bytes each. *)
Fixpoint repeat_text (n : nat) (t : string) : string :=
  match n with
  | O => EmptyString
  | S k => t ++ repeat_text k t
  end.

Definition e_acute : string :=
  String (ascii_of_nat 195) (String (ascii_of_nat 169) EmptyString).


Definition nodes_only : Store.db :=
  Store.mk_db true [("application", [named_application]); ("risk", [risk_record])] 0.

(** A store whose [application] collection cannot be read while the
    others can. *)
Definition flaky_find (c : string) (limit : option Z) : M Store.db (list dict) :=
  fun s =>
    if String.eqb c "application" then (Raise StoreUnavailable, s)
    else Store.find c limit s.

(** A database handle whose listing returns twelve names, one whose
    listing fails, and an environment with the URL set and the name set to
    the empty string. *)
Definition twelve_names : list string :=
  ["application"; "process"; "role"; "dataasset"; "risk"; "compliancerequirement";
   "relationship"; "audit"; "jobs"; "sessions"; "tmp"; "users"].

Definition listing_handle : database Store.db :=
  mk_database (Some (VStr "ordne")) (fun s => (Ok twelve_names, s)).

Definition failing_handle : database Store.db :=
  mk_database (Some (VStr "ordne")) (fun s => (Raise StoreUnavailable, s)).

Definition environment (name : string) : option string :=
  if String.eqb name "DATABASE_URL" then Some "mongodb://localhost:27017"
  else if String.eqb name "DATABASE_NAME" then Some EmptyString
  else None.

Definition exn_text (e : exn) : string :=
  match e with
  | HTTPException _ detail => detail
  | StoreUnavailable =>
      "Database not available. Check DATABASE_URL and DATABASE_NAME environment variables."
  | StoreWriteError => "write failed"
  | OtherException msg => msg
  end.

(** The read and the insert of the sample store, failing on every
    collection outside [allowed]. *)
Definition find_only (allowed : list string) (c : string) (limit : option Z)
  : M Store.db (list dict) :=
  fun s =>
    if existsb (String.eqb c) allowed then Store.find c limit s
    else (Raise StoreWriteError, s).

Definition insert_only (allowed : list string) (c : string) (record : instance)
  : M Store.db value :=
  fun s =>
    if existsb (String.eqb c) allowed then Store.insert c record s
    else (Raise StoreWriteError, s).

End Sample.

(* ===================================================================== *)
(** ** Runs of the model *)
(* ===================================================================== *)

Example str_none : py_str VNone = "None". Proof. reflexivity. Qed.
Example str_int_neg : py_str (VInt (-42)) = "-42". Proof. reflexivity. Qed.
Example str_list : py_str (VList [VStr "a"; VInt 1; VNone]) = "['a', 1, None]".
Proof. reflexivity. Qed.
Example iso_dt :
  isoformat (VDateTime (mk_datetime 2024 3 9 7 5 0 0)) = Some "2024-03-09T07:05:00".
Proof. reflexivity. Qed.
Example iso_dt_us :
  isoformat (VDateTime (mk_datetime 2024 3 9 7 5 1 250)) = Some "2024-03-09T07:05:01.000250".
Proof. reflexivity. Qed.
Example str_dt :
  py_str (VDateTime (mk_datetime 2024 3 9 7 5 0 0)) = "2024-03-09 07:05:00".
Proof. reflexivity. Qed.
Example cap_dataasset : capitalize "dataasset" = "Dataasset". Proof. reflexivity. Qed.
Example lower_mixed : ascii_lower "DataAsset" = "dataasset". Proof. reflexivity. Qed.
Example lower_kelvin : sample_lower Sample.kelvin_risk = "risk". Proof. reflexivity. Qed.
Example iso_date : isoformat (VDate (mk_date 987 1 2)) = Some "0987-01-02".
Proof. reflexivity. Qed.
Example slice_accented :
  take_chars 50 (Sample.repeat_text 60 Sample.e_acute)
  = Sample.repeat_text 50 Sample.e_acute
  /\ String.length (take_chars 50 (Sample.repeat_text 60 Sample.e_acute)) = 100
  /\ char_count (take_chars 50 (Sample.repeat_text 60 Sample.e_acute)) = 50.
Proof. repeat split. Qed.
Example slice_ascii : take_chars 3 "risky" = "ris". Proof. reflexivity. Qed.
Example list_models_names :
  keys list_models = ["Application"; "ComplianceRequirement"; "DataAsset"; "Process";
                      "Relationship"; "Risk"; "Role"].
Proof. reflexivity. Qed.
Example str_annotation_level :
  str_annotation (TOptional (TLiteral ["L1"; "L2"; "L3"]))
  = "typing.Optional[typing.Literal['L1', 'L2', 'L3']]".
Proof. reflexivity. Qed.
Example risk_minimal :
  model_init strict_value Risk [("title", VStr "X"); ("likelihood", VStr "high")]
  = inl (mk_instance "Risk"
           [("title", VStr "X"); ("description", VNone); ("likelihood", VStr "high");
            ("impact", VStr "low"); ("owner", VNone); ("related_assets", VList [])]).
Proof. reflexivity. Qed.
Example application_without_name :
  model_init strict_value Application [("owner", VStr "ops")]
  = inr (mk_error "Application" [("name", Missing)]).
Proof. reflexivity. Qed.
Example create_then_list :
  let s1 := snd (Store.create "Risk"
                   [("title", VStr "X"); ("likelihood", VStr "high"); ("impact", VStr "low")]
                   Store.empty) in
  fst (Store.list_documents "risk" (Some 100%Z) s1)
  = Ok (VDict [("items", VList [VDict
        [("_id", VStr "id0"); ("title", VStr "X"); ("description", VNone);
         ("likelihood", VStr "high"); ("impact", VStr "low"); ("owner", VNone);
         ("related_assets", VList [])]])]).
Proof. reflexivity. Qed.
Example create_unknown :
  fst (Store.create "app" [] Store.empty)
  = Raise (HTTPException 404 "Unknown collection 'app'").
Proof. reflexivity. Qed.
Example graph_empty :
  fst (Store.graph Store.empty) = Ok (VDict [("nodes", VList []); ("edges", VList [])]).
Proof. reflexivity. Qed.

(* ===================================================================== *)
(** ** Facts on dicts *)
(* ===================================================================== *)
Lemma fold_left_ext {A B : Type} (f g : A -> B -> A) (l : list B) (a : A) :
  (forall a b, f a b = g a b) -> fold_left f l a = fold_left g l a.
Proof.
  intros E. revert a. induction l as [|b l IH]; intros a; simpl; [reflexivity|].
  rewrite E. apply IH.
Qed.

Section DictFacts.

Context {A : Type}.
Implicit Types (d acc : list (string * A)) (k : string).

Lemma lookup_app k d d' :
  lookup k (d ++ d')%list = match lookup k d with Some v => Some v | None => lookup k d' end.
Proof.
  induction d as [|[k' v'] d IH]; simpl; [reflexivity|].
  destruct (String.eqb k' k); [reflexivity | exact IH].
Qed.

Lemma lookup_None_keys k d : lookup k d = None <-> ~ In k (keys d).
Proof.
  induction d as [|[k' v'] d IH]; simpl.
  - split; [intros _ [] | reflexivity].
  - destruct (String.eqb_spec k' k) as [->|Hne].
    + split; [discriminate | intros H; exfalso; apply H; left; reflexivity].
    + rewrite IH. split.
      * intros H [E|I]; [exact (Hne E) | exact (H I)].
      * intros H I. apply H. right. exact I.
Qed.

Lemma lookup_In k d v : lookup k d = Some v -> In (k, v) d.
Proof.
  induction d as [|[k' v'] d IH]; simpl; [discriminate|].
  destruct (String.eqb_spec k' k) as [->|Hne].
  - intros [= ->]. left. reflexivity.
  - intros H. right. exact (IH H).
Qed.

Lemma In_lookup k d v : NoDup (keys d) -> In (k, v) d -> lookup k d = Some v.
Proof.
  induction d as [|[k' v'] d IH]; simpl; [intros _ []|].
  intros Hnd. inversion Hnd as [|? ? Hnotin Hnd']; subst.
  intros [[= -> ->]|Hin].
  - rewrite String.eqb_refl. reflexivity.
  - destruct (String.eqb_spec k' k) as [->|Hne].
    + exfalso. apply Hnotin. change k with (fst (k, v)). apply in_map. exact Hin.
    + exact (IH Hnd' Hin).
Qed.

(** Assigning to a key the dict does not hold appends the item. *)
Lemma setitem_fresh k (v : A) d : lookup k d = None -> setitem k v d = (d ++ [(k, v)])%list.
Proof.
  induction d as [|[k' v'] d IH]; simpl; [reflexivity|].
  destruct (String.eqb k' k); [discriminate|].
  intros H. rewrite (IH H). reflexivity.
Qed.

(** A loop of assignments to pairwise distinct new keys builds the dict
    of its items, in order. *)
Lemma fold_setitem_map {B : Type} (g : B -> string * A) (items : list B) acc :
  NoDup (map (fun x => fst (g x)) items) ->
  (forall x, In x items -> lookup (fst (g x)) acc = None) ->
  fold_left (fun out x => setitem (fst (g x)) (snd (g x)) out) items acc
  = (acc ++ map g items)%list.
Proof.
  revert acc. induction items as [|x items IH]; intros acc Hnd Hacc; simpl.
  - rewrite app_nil_r. reflexivity.
  - inversion Hnd as [|? ? Hnotin Hnd']; subst.
    rewrite setitem_fresh by (apply Hacc; left; reflexivity).
    rewrite IH; [| exact Hnd' |].
    + rewrite <- app_assoc. simpl. rewrite <- surjective_pairing. reflexivity.
    + intros y Hy. rewrite lookup_app, (Hacc y (or_intror Hy)). simpl.
      destruct (String.eqb_spec (fst (g x)) (fst (g y))) as [E|_]; [|reflexivity].
      exfalso. apply Hnotin. rewrite E.
      exact (in_map (fun x => fst (g x)) items y Hy).
Qed.

End DictFacts.

(* ===================================================================== *)
(** ** List: serialization *)
(* ===================================================================== *)

Lemma serialized_field_key kv : fst (Spec.serialized_field kv) = fst kv.
Proof.
  destruct kv as [k v]. unfold Spec.serialized_field.
  destruct (String.eqb_spec k "_id") as [->|_]; [reflexivity|].
  destruct (isoformat v); reflexivity.
Qed.

Lemma serialize_item_setitem out kv :
  serialize_item out kv
  = setitem (fst (Spec.serialized_field kv)) (snd (Spec.serialized_field kv)) out.
Proof.
  destruct kv as [k v]. unfold serialize_item, Spec.serialized_field.
  destruct (String.eqb k "_id"); [reflexivity|].
  destruct (isoformat v); reflexivity.
Qed.

(** On a record (a dict: no key twice), the loop of [serialize] yields the
    fields one by one, each in its serialized form, in the record's order. *)
Lemma serialize_map (doc : dict) :
  NoDup (keys doc) -> serialize doc = map Spec.serialized_field doc.
Proof.
  intros Hnd. unfold serialize.
  rewrite (fold_left_ext _ (fun out x => setitem (fst (Spec.serialized_field x))
                                           (snd (Spec.serialized_field x)) out))
    by (intros out kv; apply serialize_item_setitem).
  rewrite fold_setitem_map; [reflexivity | | intros; reflexivity].
  erewrite map_ext; [exact Hnd | apply serialized_field_key].
Qed.

(** C7. For every raw record returned by List, the identifier field comes
    out as [_id] with the string form of its value, every date or time
    field as its ISO-8601 text, every other field unchanged; the response
    is the dict with the single key [items] holding the serialized records
    in the order the store returned them. *)
Theorem list_serializes_records :
  forall (lower : string -> string)
         (store : Type) (get_documents : string -> option Z -> M store (list dict))
         (collection : string) (limit : option Z) (m : model)
         (s s' : store) (docs : list dict),
    _model_for_collection lower collection = Some m ->
    get_documents (lower collection) limit s = (Ok docs, s') ->
    Forall (fun d => NoDup (keys d)) docs ->
    get_collection_documents lower store get_documents collection limit s
    = (Ok (VDict [("items", VList (map Spec.serialized_record docs))]), s').
Proof.
  intros lower store gd c limit m s s' docs Hm Hgd Hdocs.
  unfold get_collection_documents, bind, ret. rewrite Hm, Hgd.
  assert (E : map (fun d => VDict (serialize d)) docs = map Spec.serialized_record docs);
    [| rewrite E; reflexivity].
  apply map_ext_in. intros d Hd. unfold Spec.serialized_record.
  rewrite serialize_map; [reflexivity|].
  rewrite Forall_forall in Hdocs. exact (Hdocs d Hd).
Qed.

(* ===================================================================== *)
(** ** Names: distinctness and letter case *)
(* ===================================================================== *)

Lemma distinct_NoDup (l : list string) : Spec.distinct l = true -> NoDup l.
Proof.
  induction l as [|x r IH]; simpl; intros H; constructor.
  - apply andb_prop in H. destruct H as [H _].
    intros Hin. apply negb_true_iff in H.
    assert (E : existsb (String.eqb x) r = true).
    { apply existsb_exists. exists x. split; [exact Hin | apply String.eqb_refl]. }
    rewrite E in H. discriminate.
  - apply andb_prop in H. exact (IH (proj2 H)).
Qed.

Lemma all_ascii_complete (c : ascii) : In c Spec.all_ascii.
Proof.
  unfold Spec.all_ascii. rewrite <- (ascii_nat_embedding c).
  apply in_map. apply in_seq. pose proof (nat_ascii_bounded c). lia.
Qed.

Lemma same_letter_lower (a b : ascii) :
  Spec.same_letter a b = Ascii.eqb (lower_char a) (lower_char b).
Proof.
  assert (H : forallb (fun a => forallb (fun b =>
                Bool.eqb (Spec.same_letter a b) (Ascii.eqb (lower_char a) (lower_char b)))
                Spec.all_ascii) Spec.all_ascii = true) by (vm_compute; reflexivity).
  rewrite forallb_forall in H. specialize (H a (all_ascii_complete a)).
  rewrite forallb_forall in H. specialize (H b (all_ascii_complete b)).
  apply Bool.eqb_prop. exact H.
Qed.

(** Equality up to letter case is equality after folding A to Z. *)
Lemma eq_nocase_lower (s t : string) :
  Spec.eq_nocase s t = true <-> ascii_lower s = ascii_lower t.
Proof.
  revert t. induction s as [|a s IH]; intros [|b t]; simpl;
    try (split; [reflexivity || discriminate | reflexivity || discriminate]).
  rewrite same_letter_lower, andb_true_iff, IH, Ascii.eqb_eq. split.
  - intros [-> ->]. reflexivity.
  - intros [= -> ->]. split; reflexivity.
Qed.

Lemma lower_char_ascii (c : ascii) :
  (nat_of_ascii (lower_char c) <? 128)%nat = (nat_of_ascii c <? 128)%nat.
Proof.
  assert (H : forallb (fun c => Bool.eqb (nat_of_ascii (lower_char c) <? 128)%nat
                                         (nat_of_ascii c <? 128)%nat)
                Spec.all_ascii = true) by (vm_compute; reflexivity).
  rewrite forallb_forall in H. apply Bool.eqb_prop. exact (H c (all_ascii_complete c)).
Qed.

Lemma ascii_lower_is_ascii (s : string) : is_ascii (ascii_lower s) = is_ascii s.
Proof.
  induction s as [|c s IH]; simpl; [reflexivity|].
  rewrite lower_char_ascii, IH. reflexivity.
Qed.

(** A text equal to an ASCII text up to letter case is an ASCII text. *)
Lemma eq_nocase_is_ascii (s t : string) :
  Spec.eq_nocase s t = true -> is_ascii t = true -> is_ascii s = true.
Proof.
  intros E Ht. apply eq_nocase_lower in E.
  rewrite <- ascii_lower_is_ascii, E, ascii_lower_is_ascii. exact Ht.
Qed.

(** The sample [lower] is [str.lower] on ASCII texts. *)
Lemma sample_lower_folds_ascii : Spec.folds_ascii sample_lower.
Proof.
  intros s. induction s as [|a s IH]; [reflexivity|].
  cbn [is_ascii]. intros H. apply andb_prop in H. destruct H as [Ha Hs].
  specialize (IH Hs).
  assert (Hk : forall b c, is_kelvin a b c = false).
  { intros b c. unfold is_kelvin. apply Nat.ltb_lt in Ha.
    destruct (Nat.eqb_spec (nat_of_ascii a) 226) as [E|_]; [lia | reflexivity]. }
  cbn [sample_lower ascii_lower]. destruct s as [|b [|c r]].
  - reflexivity.
  - rewrite IH. reflexivity.
  - rewrite Hk, IH. reflexivity.
Qed.

(* ===================================================================== *)
(** ** The registry and its summary *)
(* ===================================================================== *)

Lemma list_models_value :
  list_models
  = [("Application", Application); ("ComplianceRequirement", ComplianceRequirement);
     ("DataAsset", DataAsset); ("Process", Process); ("Relationship", Relationship);
     ("Risk", Risk); ("Role", Role)].
Proof. reflexivity. Qed.

Lemma list_models_fields_distinct :
  Forall (fun nm => NoDup (keys (model_fields (snd nm)))) list_models.
Proof.
  rewrite list_models_value.
  repeat (constructor; [apply distinct_NoDup; reflexivity|]). constructor.
Qed.

(** A model with a field whose descriptor has no [field_info] stops the
    comprehension over its fields, whatever was summarized before. *)
Lemma summarize_fields_from_raises (fields : list (string * FieldInfo)) :
  Forall (fun nf => field_info (snd nf) = None) fields ->
  fields <> [] ->
  forall out, summarize_fields_from out fields = inr (AttributeError "FieldInfo" "field_info").
Proof.
  intros Hall Hne out. destruct fields as [|[f_name f] rest]; [contradiction|].
  inversion Hall as [|? ? Hf _]; subst. cbn [snd] in Hf.
  cbn [summarize_fields_from]. unfold summarize_field. rewrite Hf. reflexivity.
Qed.

(** Over models none of whose descriptors has [field_info], the summary
    raises as soon as one model declares a field; models without fields
    before it are summarized and lost. *)
Lemma schema_summary_from_raises (lower : string -> string)
      (models : list (string * model)) :
  Forall (fun nm => Forall (fun nf => field_info (snd nf) = None) (model_fields (snd nm)))
    models ->
  Exists (fun nm => model_fields (snd nm) <> []) models ->
  forall out,
    schema_summary_from lower out models = inr (AttributeError "FieldInfo" "field_info").
Proof.
  intros Hall Hex. induction models as [|[name m] models IH]; intros out.
  - inversion Hex.
  - inversion Hall as [|? ? Hm Hrest]; subst. cbn [snd] in Hm.
    cbn [schema_summary_from]. unfold summarize_fields.
    destruct (model_fields m) as [|nf fields] eqn:E.
    + cbn [summarize_fields_from]. apply IH; [exact Hrest|].
      inversion Hex as [? ? Hhere|? ? Hlater]; subst; [|exact Hlater].
      cbn [snd] in Hhere. rewrite E in Hhere. contradiction.
    + rewrite (summarize_fields_from_raises (nf :: fields) Hm); [reflexivity | discriminate].
Qed.

Lemma registry_descriptors_lack_field_info :
  Forall (fun nm => Forall (fun nf => field_info (snd nf) = None) (model_fields (snd nm)))
    list_models.
Proof.
  rewrite list_models_value.
  repeat (constructor; [repeat (constructor; [reflexivity|]); constructor|]). constructor.
Qed.

(** C5, at the failing input. [GET /schema] takes no input: on the seven
    registered types [schema_summary] reads [f.field_info] on the first
    field of the first type, which the descriptor does not have, and
    raises; the endpoint fails with that exception and returns no entry,
    where the claim has seven entries with the declared field names. *)
Theorem schema_summary_raises :
  forall lower : string -> string,
    schema_summary lower = inr (AttributeError "FieldInfo" "field_info")
    /\ (exists f rest,
          model_fields Application = ("name", f) :: rest /\ field_info f = None)
    /\ forall (store : Type) (s : store),
         @get_schema lower store s
         = (Raise (OtherException "'FieldInfo' object has no attribute 'field_info'"), s).
Proof.
  intros lower.
  assert (H : schema_summary lower = inr (AttributeError "FieldInfo" "field_info")).
  { unfold schema_summary, schema_summary_of.
    apply schema_summary_from_raises; [exact registry_descriptors_lack_field_info|].
    rewrite list_models_value. left. discriminate. }
  split; [exact H|]. split.
  - do 2 eexists. split; reflexivity.
  - intros store s. unfold get_schema. rewrite H. reflexivity.
Qed.

(* ===================================================================== *)
(** ** Resolution of a collection name *)
(* ===================================================================== *)
Section Resolution.

Variable lower : string -> string.

Lemma model_for_collection_in_found (models : list (string * model)) name T s :
  NoDup (map lower (keys models)) ->
  In (name, T) models ->
  lower name = lower s ->
  model_for_collection_in lower models s = Some T.
Proof.
  induction models as [|[n m] models IH]; simpl; [intros _ []|].
  intros Hnd [[= -> ->]|Hin] E.
  - rewrite E, String.eqb_refl. reflexivity.
  - inversion Hnd as [|? ? Hnotin Hnd']; subst.
    destruct (String.eqb_spec (lower n) (lower s)) as [E'|_].
    + exfalso. apply Hnotin. rewrite E', <- E.
      apply in_map. change name with (fst (name, T)). apply in_map. exact Hin.
    + exact (IH Hnd' Hin E).
Qed.

Lemma model_for_collection_in_Some (models : list (string * model)) s T :
  model_for_collection_in lower models s = Some T ->
  exists name, In (name, T) models /\ lower name = lower s.
Proof.
  induction models as [|[n m] models IH]; simpl; [discriminate|].
  destruct (String.eqb_spec (lower n) (lower s)) as [E|_].
  - intros [= ->]. exists n. split; [left; reflexivity | exact E].
  - intros H. destruct (IH H) as [name [Hin E]]. exists name. split; [right|]; assumption.
Qed.

Lemma model_for_collection_in_None (models : list (string * model)) s :
  (forall name, In name (keys models) -> lower name <> lower s) ->
  model_for_collection_in lower models s = None.
Proof.
  induction models as [|[n m] models IH]; simpl; [reflexivity|].
  intros H. destruct (String.eqb_spec (lower n) (lower s)) as [E|_].
  - exfalso. exact (H n (or_introl eq_refl) E).
  - apply IH. intros name Hin. apply H. right. exact Hin.
Qed.

Hypothesis lower_folds_ascii : Spec.folds_ascii lower.

Lemma registry_names_are_ascii (name : string) :
  In name (keys list_models) -> is_ascii name = true.
Proof.
  assert (H : forallb is_ascii (keys list_models) = true) by reflexivity.
  rewrite forallb_forall in H. exact (H name).
Qed.

Lemma registry_lower (name : string) :
  In name (keys list_models) -> lower name = ascii_lower name.
Proof. intros Hin. apply lower_folds_ascii. exact (registry_names_are_ascii name Hin). Qed.

Lemma registered_collections_value :
  Spec.registered_collections lower
  = ["application"; "compliancerequirement"; "dataasset"; "process"; "relationship";
     "risk"; "role"].
Proof.
  unfold Spec.registered_collections.
  rewrite (map_ext_in lower ascii_lower (keys list_models) registry_lower).
  reflexivity.
Qed.

Lemma registry_names_distinct : NoDup (map lower (keys list_models)).
Proof.
  change (map lower (keys list_models)) with (Spec.registered_collections lower).
  rewrite registered_collections_value. apply distinct_NoDup. reflexivity.
Qed.

(** On an ASCII path segment, the comparison of the lower-cased texts is
    equality up to letter case. *)
Lemma lower_match_ascii (s name : string) :
  is_ascii s = true -> In name (keys list_models) ->
  (lower s = lower name <-> Spec.eq_nocase s name = true).
Proof.
  intros Hs Hname.
  rewrite (lower_folds_ascii s Hs), (registry_lower name Hname).
  symmetry. apply eq_nocase_lower.
Qed.

End Resolution.

(** C4. For [str.lower] as it is on ASCII texts and whatever it is on the
    others: every string equal to a registered type's name up to letter
    case resolves to that type, and is served from the same store
    collection as the name itself; a string whose lower-cased form is the
    lower-cased form of no registered name resolves to nothing, and both
    handlers answer 404 with a detail that names the collection, leaving
    the store as it was; a string resolves to a type only by that exact
    comparison, which on an ASCII string is equality up to letter case. *)
Theorem collection_name_resolution :
  forall lower : string -> string,
    Spec.folds_ascii lower ->
    (forall (name : string) (T : model) (s : string),
        In (name, T) list_models ->
        Spec.eq_nocase s name = true ->
        _model_for_collection lower s = Some T
        /\ lower s = lower name
        /\ forall store (get_documents : string -> option Z -> M store (list dict)) limit,
             get_collection_documents lower store get_documents s limit
             = get_collection_documents lower store get_documents name limit)
    /\
    (forall (s : string),
        (forall name, In name (keys list_models) -> lower s <> lower name) ->
        _model_for_collection lower s = None
        /\ forall store get_documents create_document validate_value str_error limit data
                  (st : store),
             get_collection_documents lower store get_documents s limit st
             = (Raise (HTTPException 404 ("Unknown collection '" ++ s ++ "'")), st)
             /\ create_collection_document lower store create_document validate_value
                  str_error s data st
                = (Raise (HTTPException 404 ("Unknown collection '" ++ s ++ "'")), st))
    /\
    (forall (s : string) (T : model),
        _model_for_collection lower s = Some T ->
        exists name, In (name, T) list_models /\ lower s = lower name)
    /\
    (forall (s name : string),
        is_ascii s = true -> In name (keys list_models) ->
        (lower s = lower name <-> Spec.eq_nocase s name = true)).
Proof.
  intros lower Hlower. split; [|split; [|split]].
  - intros name T s Hin Hs.
    assert (Hname : In name (keys list_models)).
    { change name with (fst (name, T)). apply in_map. exact Hin. }
    assert (Hascii : is_ascii s = true).
    { exact (eq_nocase_is_ascii s name Hs (registry_names_are_ascii name Hname)). }
    apply (lower_match_ascii lower Hlower s name Hascii Hname) in Hs.
    assert (Hres : _model_for_collection lower s = Some T).
    { apply (model_for_collection_in_found lower _ name);
        [exact (registry_names_distinct lower Hlower) | exact Hin | symmetry; exact Hs]. }
    assert (Hnm : _model_for_collection lower name = Some T).
    { apply (model_for_collection_in_found lower _ name);
        [exact (registry_names_distinct lower Hlower) | exact Hin | reflexivity]. }
    split; [exact Hres|]. split; [exact Hs|].
    intros store gd limit. unfold get_collection_documents.
    rewrite Hres, Hnm, Hs. reflexivity.
  - intros s Hs.
    assert (Hres : _model_for_collection lower s = None).
    { apply model_for_collection_in_None. intros name Hin E.
      exact (Hs name Hin (eq_sym E)). }
    split; [exact Hres|].
    intros store gd cd vv se limit data st.
    unfold get_collection_documents, create_collection_document.
    rewrite Hres. split; reflexivity.
  - intros s T H. apply model_for_collection_in_Some in H.
    destruct H as [name [Hin E]]. exists name. split; [exact Hin | symmetry; exact E].
  - intros s name Hs Hname. exact (lower_match_ascii lower Hlower s name Hs Hname).
Qed.

(* ===================================================================== *)
(** ** Model construction *)
(* ===================================================================== *)
Section ValidatorFacts.

Variable validate_value : FieldInfo -> value -> option value.

Local Abbreviation validate_fields := (validate_fields validate_value).
Local Abbreviation model_init := (model_init validate_value).

(** The outcome depends on the payload through its declared keys only. *)
Lemma validate_fields_ext (fields : list (string * FieldInfo)) (data data' : dict) :
  (forall k, In k (keys fields) -> lookup k data = lookup k data') ->
  validate_fields fields data = validate_fields fields data'.
Proof.
  induction fields as [|[name f] fields IH]; simpl; intros H; [reflexivity|].
  rewrite IH by (intros k Hk; apply H; right; exact Hk).
  unfold validate_field. rewrite (H name (or_introl eq_refl)). reflexivity.
Qed.

(** Without errors every declared field has its value, in order. *)
Lemma validate_fields_keys (fields : list (string * FieldInfo)) (data vals : dict) :
  validate_fields fields data = (vals, []) -> keys vals = keys fields.
Proof.
  revert vals. induction fields as [|[name f] fields IH]; simpl; intros vals.
  - intros [= <-]. reflexivity.
  - destruct (validate_fields fields data) as [vals' errs'].
    destruct (validate_field validate_value data name f) as [v|e].
    + intros [= <- ->]. simpl. rewrite (IH vals' eq_refl). reflexivity.
    + discriminate.
Qed.

(** A required field the payload lacks is an error. *)
Lemma validate_fields_missing (fields : list (string * FieldInfo)) (data : dict) name f :
  In (name, f) fields -> is_required f = true -> lookup name data = None ->
  In (name, Missing) (snd (validate_fields fields data)).
Proof.
  intros Hin Hreq Hdata.
  induction fields as [|[n g] fields IH]; simpl; [destruct Hin|].
  destruct (validate_fields fields data) as [vals errs].
  destruct Hin as [[= -> ->]|Hin].
  - unfold validate_field. rewrite Hdata.
    unfold is_required in Hreq.
    destruct (default f), (default_factory f); try discriminate.
    left. reflexivity.
  - specialize (IH Hin). simpl in IH.
    destruct (validate_field validate_value data n g); simpl; [exact IH | right; exact IH].
Qed.

(** A field the payload lacks takes its declared default. *)
Lemma validate_fields_default (fields : list (string * FieldInfo)) (data : dict) name f v :
  NoDup (keys fields) ->
  In (name, f) fields -> default f = Default v -> default_factory f = None ->
  lookup name data = None ->
  forall vals, validate_fields fields data = (vals, []) -> lookup name vals = Some v.
Proof.
  intros Hnd Hin Hdef Hfac Hdata.
  induction fields as [|[n g] fields IH]; simpl; [destruct Hin|].
  inversion Hnd as [|? ? Hnotin Hnd']; subst.
  intros vals. destruct (validate_fields fields data) as [vals' errs'] eqn:E.
  destruct (validate_field validate_value data n g) as [w|e] eqn:Ef; [|discriminate].
  intros [= <- ->]. simpl.
  destruct Hin as [[= -> ->]|Hin].
  - rewrite String.eqb_refl. unfold validate_field in Ef.
    rewrite Hdata, Hfac, Hdef in Ef. congruence.
  - destruct (String.eqb_spec n name) as [->|_].
    + exfalso. apply Hnotin. change name with (fst (name, f)). apply in_map. exact Hin.
    + exact (IH Hnd' Hin vals' eq_refl).
Qed.

Lemma model_init_inl (m : model) (data : dict) (inst : instance) :
  model_init m data = inl inst ->
  inst_class inst = model_name m
  /\ validate_fields (model_fields m) data = (inst_fields inst, []).
Proof.
  unfold Pydantic.model_init.
  destruct (validate_fields (model_fields m) data) as [vals [|e errs]]; [|discriminate].
  intros [= <-]. split; reflexivity.
Qed.

Lemma model_init_missing (m : model) (data : dict) name f :
  In (name, f) (model_fields m) -> is_required f = true -> lookup name data = None ->
  exists e, model_init m data = inr e /\ In (name, Missing) (ve_errors e).
Proof.
  intros Hin Hreq Hdata.
  pose proof (validate_fields_missing _ data name f Hin Hreq Hdata) as H.
  unfold Pydantic.model_init.
  destruct (validate_fields (model_fields m) data) as [vals [|e errs]]; [destruct H|].
  eexists. split; [reflexivity | exact H].
Qed.

Lemma lookup_declared_part (m : model) (data : dict) k :
  In k (keys (model_fields m)) -> lookup k (Spec.declared_part m data) = lookup k data.
Proof.
  intros Hk. unfold Spec.declared_part.
  induction data as [|[k' v] data IH]; simpl; [reflexivity|].
  destruct (existsb (String.eqb k') (keys (model_fields m))) eqn:E; simpl.
  - rewrite IH. reflexivity.
  - destruct (String.eqb_spec k' k) as [->|_]; [|exact IH].
    exfalso. assert (E' : existsb (String.eqb k) (keys (model_fields m)) = true).
    { apply existsb_exists. exists k. split; [exact Hk | apply String.eqb_refl]. }
    rewrite E' in E. discriminate.
Qed.

Lemma model_init_declared_part (m : model) (data : dict) :
  model_init m data = model_init m (Spec.declared_part m data).
Proof.
  unfold Pydantic.model_init.
  rewrite (validate_fields_ext _ data (Spec.declared_part m data)); [reflexivity|].
  intros k Hk. symmetry. apply lookup_declared_part. exact Hk.
Qed.

End ValidatorFacts.

(* ===================================================================== *)
(** ** Create *)
(* ===================================================================== *)

(** C3. On a resolved collection: a payload that fails validation is
    answered 422 with the validation error's message, and the store is
    left as it was, whatever the insert operation would do (a payload that
    lacks a required field is such a payload); a payload that validates
    is handed to the store's insert under the lower-cased collection name,
    and the response is the dict with the single key [_id] holding what
    the insert returned (a failure of the insert is the handler's). *)
Theorem create_validates_before_insert :
  forall (lower : string -> string)
         (store : Type) (create_document : string -> instance -> M store value)
         (validate_value : FieldInfo -> value -> option value)
         (str_error : ValidationError -> string)
         (collection : string) (m : model) (data : dict) (st : store),
    _model_for_collection lower collection = Some m ->
    (forall e, model_init validate_value m data = inr e ->
       create_collection_document lower store create_document validate_value str_error
         collection data st
       = (Raise (HTTPException 422 ("Validation error: " ++ str_error e)), st))
    /\ (forall name f,
          In (name, f) (model_fields m) -> is_required f = true -> lookup name data = None ->
          exists e, model_init validate_value m data = inr e)
    /\ (forall validated, model_init validate_value m data = inl validated ->
          create_collection_document lower store create_document validate_value str_error
            collection data st
          = match create_document (lower collection) validated st with
            | (Ok inserted_id, st') => (Ok (VDict [("_id", inserted_id)]), st')
            | (Raise e, st') => (Raise e, st')
            end).
Proof.
  intros lower store cd vv se c m data st Hm. repeat split.
  - intros e He. unfold create_collection_document. rewrite Hm, He. reflexivity.
  - intros name f Hin Hreq Hdata.
    destruct (model_init_missing vv m data name f Hin Hreq Hdata) as [e [He _]].
    exists e. exact He.
  - intros validated Hv. unfold create_collection_document, bind, ret.
    rewrite Hm, Hv. destruct (cd (lower c) validated st) as [[id|e] st']; reflexivity.
Qed.

(** C9. For each of Risk's [likelihood] and [impact], of
    ComplianceRequirement's [framework] and of Process's [level]: a payload
    without the field, once validated, has the field set to the declared
    default (low, low, GDPR, L2). *)
Theorem omitted_enum_takes_default :
  forall (validate_value : FieldInfo -> value -> option value)
         (m : model) (field text : string) (data : dict) (validated : instance),
    In (m, field, text) Spec.enum_defaults ->
    lookup field data = None ->
    model_init validate_value m data = inl validated ->
    lookup field (inst_fields validated) = Some (VStr text).
Proof.
  intros vv m field text data validated Hin Hdata Hv.
  apply model_init_inl in Hv. destruct Hv as [_ Hv].
  assert (Hfield : exists f, In (field, f) (model_fields m)
                             /\ default f = Default (VStr text)
                             /\ default_factory f = None
                             /\ NoDup (keys (model_fields m))).
  { simpl in Hin.
    destruct Hin as [[= <- <- <-]|[[= <- <- <-]|[[= <- <- <-]|[[= <- <- <-]|[]]]]];
      eexists; (split; [simpl; eauto 10|]);
      (split; [reflexivity|]); (split; [reflexivity|]);
      apply distinct_NoDup; reflexivity. }
  destruct Hfield as [f [Hf [Hdef [Hfac Hnd]]]].
  exact (validate_fields_default vv _ data field f _ Hnd Hf Hdef Hfac Hdata _ Hv).
Qed.

(** C10. For every model class, validation looks at the declared keys
    of the payload only: the payload validates exactly when its declared
    part does, to the same record, and so does the Create handler; the
    validated record, the one handed to the store's insert, has the
    declared fields as its fields and no other. *)
Theorem undeclared_keys_are_dropped :
  forall (validate_value : FieldInfo -> value -> option value)
         (m : model) (data : dict),
    model_init validate_value m data
    = model_init validate_value m (Spec.declared_part m data)
    /\ (forall validated, model_init validate_value m data = inl validated ->
          keys (inst_fields validated) = keys (model_fields m))
    /\ (forall lower store (create_document : string -> instance -> M store value)
               str_error collection,
          _model_for_collection lower collection = Some m ->
          create_collection_document lower store create_document validate_value str_error
            collection data
          = create_collection_document lower store create_document validate_value str_error
              collection (Spec.declared_part m data)).
Proof.
  intros vv m data. repeat split.
  - apply model_init_declared_part.
  - intros validated Hv. apply model_init_inl in Hv. destruct Hv as [_ Hv].
    exact (validate_fields_keys vv _ _ _ Hv).
  - intros lower store cd se c Hm. unfold create_collection_document.
    rewrite Hm, <- model_init_declared_part. reflexivity.
Qed.

(* ===================================================================== *)
(** ** Graph *)
(* ===================================================================== *)

Lemma get_absent (d : dict) k : lookup k d = None -> get d k = VNone.
Proof. intros H. unfold get, get_default. rewrite H. reflexivity. Qed.

Lemma get_present (d : dict) k v : lookup k d = Some v -> get d k = v.
Proof. intros H. unfold get, get_default. rewrite H. reflexivity. Qed.

(** The [or] chain of the node loop picks the first usable of [name] and
    [title]. *)
Lemma node_of_node (c : string) (d : dict) : node_of c d = Spec.node c d.
Proof.
  unfold node_of, Spec.node, Spec.label, Spec.usable, py_or, get, get_default.
  destruct (lookup "name" d) as [n|]; destruct (lookup "title" d) as [t|]; simpl;
    try (destruct (truthy n) eqn:En; simpl; rewrite ?En);
    try (destruct (truthy t) eqn:Et; simpl; rewrite ?Et);
    reflexivity.
Qed.

Lemma fold_add_node (c : string) (docs : list dict) (acc : list value * dict) :
  fst (fold_left (add_node c) docs acc) = (fst acc ++ map (node_of c) docs)%list.
Proof.
  revert acc. induction docs as [|d docs IH]; intros [nodes id_map]; simpl.
  - rewrite app_nil_r. reflexivity.
  - rewrite IH. simpl. rewrite <- app_assoc. reflexivity.
Qed.

Section GraphFacts.

Variable store : Type.
Variable get_documents : string -> option Z -> M store (list dict).

Local Abbreviation fetch_nodes := (fetch_nodes store get_documents).
Local Abbreviation graph_nodes := (Spec.graph_nodes store get_documents).
Local Abbreviation graph_edges := (Spec.graph_edges store get_documents).

(** One turn of the loop over the node collections never raises. *)
Lemma fetch_nodes_run (acc : list value * dict) (c : string) (s : store) :
  exists acc',
    fetch_nodes acc c s = (Ok acc', snd (get_documents c (Some 100%Z) s))
    /\ fst acc' = match fst (get_documents c (Some 100%Z) s) with
                  | Ok docs => (fst acc ++ map (node_of c) docs)%list
                  | Raise _ => fst acc
                  end.
Proof.
  unfold Main.fetch_nodes, try_except, bind, ret.
  destruct (get_documents c (Some 100%Z) s) as [[docs|e] s']; simpl.
  - eexists. split; [reflexivity | apply fold_add_node].
  - exists acc. split; reflexivity.
Qed.

(** The loop invariant: the nodes so far, then those of the collections
    still to read. *)
Lemma for_each_fetch_nodes (cs : list string) (acc : list value * dict) (s : store) :
  exists acc',
    for_each fetch_nodes cs acc s = (Ok acc', snd (graph_nodes cs s))
    /\ fst acc' = (fst acc ++ fst (graph_nodes cs s))%list.
Proof.
  revert acc s. induction cs as [|c cs IH]; intros acc s; simpl.
  - exists acc. split; [reflexivity | rewrite app_nil_r; reflexivity].
  - destruct (fetch_nodes_run acc c s) as [acc1 [Hrun Hacc1]].
    unfold bind at 1. rewrite Hrun.
    destruct (get_documents c (Some 100%Z) s) as [[docs|e] s'] eqn:E; simpl in *.
    + destruct (IH acc1 s') as [acc' [Hrest Hacc']].
      exists acc'. destruct (graph_nodes cs s') as [nodes s''] eqn:En. simpl in *.
      split; [exact Hrest|]. rewrite Hacc', Hacc1, <- app_assoc. reflexivity.
    + destruct (IH acc1 s') as [acc' [Hrest Hacc']].
      exists acc'. split; [exact Hrest|]. rewrite Hacc', Hacc1. reflexivity.
Qed.

Lemma fetch_edges_run (s : store) :
  fetch_edges store get_documents s = (Ok (fst (graph_edges s)), snd (graph_edges s)).
Proof.
  unfold fetch_edges, Spec.graph_edges, try_except, bind, ret.
  destruct (get_documents "relationship" (Some 500%Z) s) as [[rels|e] s']; reflexivity.
Qed.

(** The whole handler: it returns, with the nodes of the readable
    collections and the edges of the relationship records. *)
Lemma get_graph_run (s : store) :
  get_graph store get_documents s
  = (Ok (VDict [("nodes", VList (fst (graph_nodes core s)));
                ("edges", VList (fst (graph_edges (snd (graph_nodes core s)))))]),
     snd (graph_edges (snd (graph_nodes core s)))).
Proof.
  unfold get_graph.
  destruct (for_each_fetch_nodes core ([], []) s) as [acc [Hrun Hacc]].
  unfold bind at 1. rewrite Hrun.
  unfold bind at 1. rewrite fetch_edges_run.
  unfold ret. simpl in Hacc. rewrite Hacc. reflexivity.
Qed.

End GraphFacts.

(** C6. Graph assembly returns for every behaviour of the store: the nodes
    are those of the node collections that could be read, in the order
    application, process, role, dataasset, risk, a collection whose read
    fails adding nothing; the edges are empty when the read of the
    relationship collection fails or yields no record. *)
Theorem graph_never_fails :
  forall (store : Type) (get_documents : string -> option Z -> M store (list dict))
         (s : store),
    exists (nodes edges : list value) (s' : store),
      get_graph store get_documents s
      = (Ok (VDict [("nodes", VList nodes); ("edges", VList edges)]), s')
      /\ nodes
         = fst (Spec.graph_nodes store get_documents
                  ["application"; "process"; "role"; "dataasset"; "risk"] s)
      /\ match get_documents "relationship" (Some 500%Z)
                 (snd (Spec.graph_nodes store get_documents core s)) with
         | (Raise _, _) => edges = []
         | (Ok [], _) => edges = []
         | (Ok rels, _) => edges = fold_left add_edge rels []
         end.
Proof.
  intros store gd s. do 3 eexists. split; [apply get_graph_run|].
  split; [reflexivity|].
  unfold Spec.graph_edges.
  destruct (gd "relationship" (Some 500%Z) (snd (Spec.graph_nodes store gd core s)))
    as [[[|r rels]|e] s']; reflexivity.
Qed.

(** C8, as amended. For every record fetched from a node collection, the
    node appended is the dict of [id], the string form of the record's
    identifier, [type], the collection name, and [label]: the record's
    [name] when it has one that counts as true, else its [title] when it
    has one that counts as true, else the capitalized collection name. *)
Theorem graph_node_of_record :
  forall (store : Type) (get_documents : string -> option Z -> M store (list dict))
         (c : string) (acc : list value * dict) (docs : list dict) (s s' : store),
    get_documents c (Some 100%Z) s = (Ok docs, s') ->
    exists id_map,
      fetch_nodes store get_documents acc c s
      = (Ok ((fst acc ++ map (Spec.node c) docs)%list, id_map), s').
Proof.
  intros store gd c acc docs s s' Hgd.
  destruct (fetch_nodes_run store gd acc c s) as [[nodes id_map] [Hrun Hnodes]].
  rewrite Hgd in Hrun, Hnodes. simpl in Hrun, Hnodes.
  exists id_map. rewrite Hrun, Hnodes.
  rewrite (map_ext _ _ (node_of_node c)). reflexivity.
Qed.

(** Against C8 as stated: an application whose [name] is the empty string
    has the field, yet its node is labelled with the capitalized
    collection name, not with the field. *)
Lemma graph_label_counterexample :
  lookup "name" Sample.unnamed_application = Some (VStr EmptyString)
  /\ Spec.claimed_label "application" Sample.unnamed_application = VStr EmptyString
  /\ fst (Store.graph Sample.populated)
     = Ok (VDict
         [("nodes", VList
            [VDict [("id", VStr "a1"); ("type", VStr "application"); ("label", VStr "Payroll")];
             VDict [("id", VStr "a2"); ("type", VStr "application");
                    ("label", VStr "Application")];
             VDict [("id", VStr "65f0c0ffee01"); ("type", VStr "risk"); ("label", VStr "X")]]);
          ("edges", VList
            [VDict [("source", VStr "a1"); ("target", VStr "a2"); ("kind", VStr "rel");
                    ("id", VStr "r1")]])])
  /\ node_of "application" Sample.unnamed_application
     <> VDict [("id", VStr "a2"); ("type", VStr "application");
               ("label", Spec.claimed_label "application" Sample.unnamed_application)].
Proof.
  split; [reflexivity|]. split; [reflexivity|]. split; [reflexivity|].
  intros H. discriminate H.
Qed.

(** The edge loop skips a record one of whose endpoints has the empty
    string as its string form. *)
Lemma add_edge_skips (edges : list value) (r : dict) :
  py_str (get r "source_id") = EmptyString \/ py_str (get r "target_id") = EmptyString ->
  add_edge edges r = edges.
Proof.
  intros [H|H]; unfold add_edge; rewrite H; simpl; [reflexivity|].
  rewrite orb_true_r. reflexivity.
Qed.

(** The edge loop emits the edge of a record both of whose endpoints have
    a non-empty string form; [kind] is the record's, or [rel] without it. *)
Lemma add_edge_emits (edges : list value) (r : dict) :
  py_str (get r "source_id") <> EmptyString ->
  py_str (get r "target_id") <> EmptyString ->
  add_edge edges r
  = (edges ++ [VDict [("source", VStr (py_str (get r "source_id")));
                      ("target", VStr (py_str (get r "target_id")));
                      ("kind", match lookup "kind" r with Some k => k | None => VStr "rel" end);
                      ("id", VStr (py_str (get r "_id")))]])%list.
Proof.
  intros Hs Ht. unfold add_edge, edge_of, get_default.
  destruct (py_str (get r "source_id")); [contradiction|].
  destruct (py_str (get r "target_id")); [contradiction|].
  reflexivity.
Qed.

(** A record without [source_id] is not skipped: the absent field reads
    as [None], whose string form is the four letters of its name. *)
Lemma add_edge_without_source (edges : list value) (r : dict) :
  lookup "source_id" r = None ->
  py_str (get r "target_id") <> EmptyString ->
  exists edge,
    add_edge edges r = (edges ++ [VDict (("source", VStr "None") :: edge)])%list.
Proof.
  intros Hs Ht. eexists. rewrite add_edge_emits; [| rewrite (get_absent r _ Hs); discriminate | exact Ht].
  rewrite (get_absent r _ Hs). reflexivity.
Qed.

(** C2, at the failing input. Of two relationship records, one with the
    empty string as [source_id] and one without the field, the first is
    left out and the second comes out as an edge whose source is the text
    None. *)
Theorem graph_keeps_edge_without_source :
  lookup "source_id" Sample.sourceless_relationship = None
  /\ Store.records "relationship" Sample.with_sourceless
     = [Sample.blank_source_relationship; Sample.sourceless_relationship]
  /\ fst (Store.graph Sample.with_sourceless)
     = Ok (VDict
         [("nodes", VList
            [VDict [("id", VStr "a1"); ("type", VStr "application"); ("label", VStr "Payroll")]]);
          ("edges", VList
            [VDict [("source", VStr "None"); ("target", VStr "a1"); ("kind", VStr "uses");
                    ("id", VStr "r2")]])]).
Proof.
  split; [reflexivity|]. split; [reflexivity|].
  unfold Store.graph. rewrite get_graph_run. reflexivity.
Qed.

(* ===================================================================== *)
(** ** List: store failures *)
(* ===================================================================== *)

(** C1, as amended. On a resolved collection, a failure raised by the
    read of the store is the failure of List: the same exception, with the
    store the read left; the empty result is what List answers when the
    read returns no record. *)
Theorem list_store_failure_propagates :
  forall (lower : string -> string)
         (store : Type) (get_documents : string -> option Z -> M store (list dict))
         (collection : string) (limit : option Z) (m : model) (s s' : store),
    _model_for_collection lower collection = Some m ->
    (forall e, get_documents (lower collection) limit s = (Raise e, s') ->
       get_collection_documents lower store get_documents collection limit s = (Raise e, s'))
    /\ (get_documents (lower collection) limit s = (Ok [], s') ->
          get_collection_documents lower store get_documents collection limit s
          = (Ok (VDict [("items", VList [])]), s')).
Proof.
  intros lower store gd c limit m s s' Hm.
  unfold get_collection_documents, bind, ret. rewrite Hm.
  split; [intros e H | intros H]; rewrite H; reflexivity.
Qed.

(** Against C1 as stated: with the store unreachable, the read of a
    registered collection raises [StoreUnavailable], and List raises it
    too instead of answering an empty result. *)
Lemma list_store_failure_counterexample :
  _model_for_collection sample_lower "application" = Some Application
  /\ Store.find (sample_lower "application") (Some 100%Z) Store.down
     = (Raise StoreUnavailable, Store.down)
  /\ Store.list_documents "application" (Some 100%Z) Store.down
     = (Raise StoreUnavailable, Store.down)
  /\ fst (Store.list_documents "application" (Some 100%Z) Store.down)
     <> Ok (VDict [("items", VList [])]).
Proof.
  split; [reflexivity|]. split; [reflexivity|]. split; [reflexivity|].
  intros H. discriminate H.
Qed.

(* ===================================================================== *)
(** ** The theorems at concrete inputs *)
(* ===================================================================== *)

Lemma list_store_failure_propagates_witness :
  _model_for_collection sample_lower "application" = Some Application
  /\ Store.find (sample_lower "application") (Some 100%Z) Store.down
     = (Raise StoreUnavailable, Store.down)
  /\ Store.list_documents "application" (Some 100%Z) Store.down
     = (Raise StoreUnavailable, Store.down).
Proof.
  split; [reflexivity|]. split; [reflexivity|].
  exact (proj1 (list_store_failure_propagates sample_lower Store.db Store.find "application"
                  (Some 100%Z) Application Store.down Store.down eq_refl)
           StoreUnavailable eq_refl).
Defined.

Lemma create_validates_before_insert_witness :
  _model_for_collection sample_lower "Application" = Some Application
  /\ Store.create "Application" [("owner", VStr "ops")] Store.empty
     = (Raise (HTTPException 422 "Validation error: Application: name"), Store.empty)
  /\ Store.create "Application" [("name", VStr "Payroll")] Store.empty
     = (Ok (VDict [("_id", VStr "id0")]),
        Store.mk_db true
          [("application",
            [[("_id", VObjectId "id0"); ("name", VStr "Payroll"); ("description", VNone);
              ("owner", VNone); ("technical_owner", VNone); ("vendor", VNone);
              ("criticality", VStr "medium"); ("lifecycle", VStr "active");
              ("gdpr_data", VBool false); ("tags", VList [])]])]
          1).
Proof.
  split; [reflexivity|]. split.
  - exact (proj1 (create_validates_before_insert sample_lower Store.db Store.insert strict_value
                    Store.error_text "Application" Application [("owner", VStr "ops")]
                    Store.empty eq_refl)
             (mk_error "Application" [("name", Missing)]) eq_refl).
  - exact (proj2 (proj2 (create_validates_before_insert sample_lower Store.db Store.insert strict_value
                           Store.error_text "Application" Application
                           [("name", VStr "Payroll")] Store.empty eq_refl))
             _ eq_refl).
Defined.

Lemma collection_name_resolution_witness :
  (_model_for_collection sample_lower "aPPlication" = Some Application
   /\ sample_lower "aPPlication" = sample_lower "Application")
  /\ _model_for_collection sample_lower "doesnotexist" = None
  /\ _model_for_collection sample_lower "app" = None
  /\ Store.list_documents "app" (Some 100%Z) Sample.populated
     = (Raise (HTTPException 404 "Unknown collection 'app'"), Sample.populated)
  /\ (_model_for_collection sample_lower Sample.kelvin_risk = Some Risk
      /\ exists name,
           In (name, Risk) list_models
           /\ sample_lower Sample.kelvin_risk = sample_lower name)
  /\ (sample_lower "RISK" = sample_lower "Risk" <-> Spec.eq_nocase "RISK" "Risk" = true).
Proof.
  assert (Hnone : forall s,
            forallb (fun name => negb (String.eqb (sample_lower s) (sample_lower name)))
              (keys list_models) = true ->
            forall name, In name (keys list_models) -> sample_lower s <> sample_lower name).
  { intros s H name Hin E. rewrite forallb_forall in H. specialize (H name Hin).
    rewrite E, String.eqb_refl in H. discriminate H. }
  destruct (collection_name_resolution sample_lower sample_lower_folds_ascii)
    as [Hsame [Hnot [Honly Hascii]]].
  split; [|split; [|split; [|split; [|split]]]].
  - destruct (Hsame "Application" Application "aPPlication" (or_introl eq_refl) eq_refl)
      as [H1 [H2 _]].
    split; [exact H1 | exact H2].
  - exact (proj1 (Hnot "doesnotexist" (Hnone "doesnotexist" eq_refl))).
  - exact (proj1 (Hnot "app" (Hnone "app" eq_refl))).
  - exact (proj1 (proj2 (Hnot "app" (Hnone "app" eq_refl))
                    Store.db Store.find Store.insert strict_value Store.error_text
                    (Some 100%Z) [] Sample.populated)).
  - split; [reflexivity | exact (Honly Sample.kelvin_risk Risk eq_refl)].
  - exact (Hascii "RISK" "Risk" eq_refl
             (or_intror (or_intror (or_intror (or_intror (or_intror (or_introl eq_refl))))))).
Defined.

Lemma list_serializes_records_witness :
  Forall (fun d => NoDup (keys d)) [Sample.risk_record; Sample.review_record]
  /\ Store.list_documents "Risk" (Some 100%Z) Sample.dated
     = (Ok (VDict [("items", VList
          [VDict
             [("_id", VStr "65f0c0ffee01"); ("title", VStr "X"); ("likelihood", VStr "high");
              ("impact", VStr "low"); ("related_assets", VList [VStr "a1"]);
              ("created_at", VStr "2024-03-09T07:05:00")];
           VDict
             [("_id", VStr "65f0c0ffee02"); ("title", VStr "Y");
              ("review_date", VStr "2024-11-05");
              ("reviewed_at", VStr "0987-01-02T03:04:05.000060")]])]),
        Sample.dated).
Proof.
  assert (H : Forall (fun d => NoDup (keys d)) [Sample.risk_record; Sample.review_record]).
  { repeat (constructor; [apply distinct_NoDup; reflexivity|]). constructor. }
  split; [exact H|].
  exact (list_serializes_records sample_lower Store.db Store.find "Risk" (Some 100%Z) Risk
           Sample.dated Sample.dated [Sample.risk_record; Sample.review_record]
           eq_refl eq_refl H).
Defined.

Lemma graph_node_of_record_witness :
  exists id_map,
    fetch_nodes Store.db Store.find ([], []) "application" Sample.populated
    = (Ok ([VDict [("id", VStr "a1"); ("type", VStr "application"); ("label", VStr "Payroll")];
            VDict [("id", VStr "a2"); ("type", VStr "application");
                   ("label", VStr "Application")]],
           id_map),
       Sample.populated).
Proof.
  exact (graph_node_of_record Store.db Store.find "application" ([], [])
           [Sample.named_application; Sample.unnamed_application]
           Sample.populated Sample.populated eq_refl).
Defined.

Lemma omitted_enum_takes_default_witness :
  model_init strict_value Risk [("title", VStr "X")]
  = inl (mk_instance "Risk"
           [("title", VStr "X"); ("description", VNone); ("likelihood", VStr "low");
            ("impact", VStr "low"); ("owner", VNone); ("related_assets", VList [])])
  /\ lookup "likelihood"
       [("title", VStr "X"); ("description", VNone); ("likelihood", VStr "low");
        ("impact", VStr "low"); ("owner", VNone); ("related_assets", VList [])]
     = Some (VStr "low")
  /\ lookup "level"
       [("name", VStr "Billing"); ("description", VNone); ("owner", VNone);
        ("level", VStr "L2"); ("related_applications", VList [])]
     = Some (VStr "L2").
Proof.
  split; [reflexivity|]. split.
  - exact (omitted_enum_takes_default strict_value Risk "likelihood" "low"
             [("title", VStr "X")] _ (or_introl eq_refl) eq_refl eq_refl).
  - exact (omitted_enum_takes_default strict_value Process "level" "L2"
             [("name", VStr "Billing")]
             (mk_instance "Process"
                [("name", VStr "Billing"); ("description", VNone); ("owner", VNone);
                 ("level", VStr "L2"); ("related_applications", VList [])])
             (or_intror (or_intror (or_intror (or_introl eq_refl)))) eq_refl eq_refl).
Defined.

Lemma undeclared_keys_are_dropped_witness :
  Spec.declared_part Application
    [("colour", VStr "red"); ("name", VStr "Payroll"); ("tags", VList [VStr "hr"]);
     ("_id", VStr "mine")]
  = [("name", VStr "Payroll"); ("tags", VList [VStr "hr"])]
  /\ model_init strict_value Application
       [("colour", VStr "red"); ("name", VStr "Payroll"); ("tags", VList [VStr "hr"]);
        ("_id", VStr "mine")]
     = model_init strict_value Application
         [("name", VStr "Payroll"); ("tags", VList [VStr "hr"])]
  /\ keys [("name", VStr "Payroll"); ("description", VNone); ("owner", VNone);
           ("technical_owner", VNone); ("vendor", VNone); ("criticality", VStr "medium");
           ("lifecycle", VStr "active"); ("gdpr_data", VBool false);
           ("tags", VList [VStr "hr"])]
     = keys (model_fields Application).
Proof.
  split; [reflexivity|]. split.
  - exact (proj1 (undeclared_keys_are_dropped strict_value Application
                    [("colour", VStr "red"); ("name", VStr "Payroll");
                     ("tags", VList [VStr "hr"]); ("_id", VStr "mine")])).
  - exact (proj1 (proj2 (undeclared_keys_are_dropped strict_value Application
                           [("colour", VStr "red"); ("name", VStr "Payroll");
                            ("tags", VList [VStr "hr"]); ("_id", VStr "mine")]))
             (mk_instance "Application"
                [("name", VStr "Payroll"); ("description", VNone); ("owner", VNone);
                 ("technical_owner", VNone); ("vendor", VNone);
                 ("criticality", VStr "medium"); ("lifecycle", VStr "active");
                 ("gdpr_data", VBool false); ("tags", VList [VStr "hr"])])
             eq_refl).
Defined.

(* ===================================================================== *)
(** ** Diagnostics: [GET /test] *)
(* ===================================================================== *)



(** X1. The diagnostic endpoint answers for every database handle, every
    behaviour of the listing and every environment: it never raises, its
    response has the six keys in their fixed order, the connection is
    reported connected exactly when there is a handle, and the
    [database_url] and [database_name] entries tell only whether the two
    environment variables are set to a non-empty text: the name of the
    database and the mark written in the connected branch never reach the
    response. *)
Theorem diagnostic_always_answers :
  forall (store : Type) (db : option (database store)) (getenv : string -> option string)
         (str_exn : exn -> string) (s : store),
    exists (response : dict) (s' : store),
      test_database store db getenv str_exn s = (Ok (VDict response), s')
      /\ keys response = Spec.diagnostic_keys
      /\ lookup "database_url" response = Some (env_flag getenv "DATABASE_URL")
      /\ lookup "database_name" response = Some (env_flag getenv "DATABASE_NAME")
      /\ lookup "connection_status" response
         = Some (VStr (match db with Some _ => "Connected" | None => "Not Connected" end))
      /\ s' = match db with
              | Some d => snd (list_collection_names d s)
              | None => s
              end.
Proof.
  intros store db getenv str_exn s.
  unfold test_database, probe, try_except, bind, ret.
  destruct db as [d|]; [destruct (list_collection_names d s) as [[names|e] s1]|];
    do 2 eexists; (split; [reflexivity|]); repeat split.
Qed.

(** X2. The [collections] entry of the diagnostic response holds at most
    ten names: the first ten of the listing, in its order, when the
    listing returns; none when there is no database handle or the listing
    raises. *)
Theorem diagnostic_collections_bounded :
  forall (store : Type) (db : option (database store)) (getenv : string -> option string)
         (str_exn : exn -> string) (s : store),
    exists (response : dict) (shown : list string),
      fst (test_database store db getenv str_exn s) = Ok (VDict response)
      /\ lookup "collections" response = Some (VList (map VStr shown))
      /\ length shown <= 10
      /\ shown = match db with
                 | Some d =>
                     match fst (list_collection_names d s) with
                     | Ok names => firstn 10 names
                     | Raise _ => []
                     end
                 | None => []
                 end.
Proof.
  intros store db getenv str_exn s.
  unfold test_database, probe, try_except, bind, ret.
  destruct db as [d|]; [destruct (list_collection_names d s) as [[names|e] s1]|]; simpl.
  - eexists. exists (firstn 10 names).
    split; [reflexivity|]. split; [reflexivity|]. split; [|reflexivity].
    apply firstn_le_length.
  - eexists. exists []. split; [reflexivity|]. split; [reflexivity|].
    split; [simpl; lia | reflexivity].
  - eexists. exists []. split; [reflexivity|]. split; [reflexivity|].
    split; [simpl; lia | reflexivity].
Qed.


(* ===================================================================== *)
(** ** The registry: members, collections, summary *)
(* ===================================================================== *)

Lemma lower_char_idempotent (c : ascii) : lower_char (lower_char c) = lower_char c.
Proof.
  assert (H : forallb (fun c => Ascii.eqb (lower_char (lower_char c)) (lower_char c))
                Spec.all_ascii = true) by (vm_compute; reflexivity).
  rewrite forallb_forall in H. apply Ascii.eqb_eq. exact (H c (all_ascii_complete c)).
Qed.

Lemma ascii_lower_idempotent (s : string) : ascii_lower (ascii_lower s) = ascii_lower s.
Proof.
  induction s as [|c s IH]; simpl; [reflexivity|].
  rewrite lower_char_idempotent, IH. reflexivity.
Qed.

Lemma model_members_keys_incl (members : list (string * member)) (k : string) :
  In k (keys (Spec.model_members members)) -> In k (keys members).
Proof.
  induction members as [|[n x] members IH]; simpl; [intros []|].
  destruct x; simpl; intros H; try (right; exact (IH H)).
  destruct H as [<-|H]; [left; reflexivity | right; exact (IH H)].
Qed.

Lemma model_members_keys_NoDup (members : list (string * member)) :
  NoDup (keys members) -> NoDup (keys (Spec.model_members members)).
Proof.
  induction members as [|[n x] members IH]; simpl; intros Hnd; [constructor|].
  inversion Hnd as [|? ? Hnotin Hnd']; subst.
  destruct x; simpl; try exact (IH Hnd').
  constructor; [|exact (IH Hnd')].
  intros H. apply Hnotin. apply model_members_keys_incl. exact H.
Qed.

Lemma list_models_from_fold (members : list (string * member)) (acc : list (string * model)) :
  fold_left (fun models nm =>
               match snd nm with
               | ModelClass m => setitem (fst nm) m models
               | _ => models
               end) members acc
  = fold_left (fun models nm => setitem (fst nm) (snd nm) models)
      (Spec.model_members members) acc.
Proof.
  revert acc. induction members as [|[n x] members IH]; intros acc; simpl; [reflexivity|].
  destruct x; simpl; apply IH.
Qed.

(** X5. Over any module whose member names are pairwise distinct,
    [list_models] registers exactly the members that are subclasses of
    [BaseModel], each under its own name and in the order of the members:
    [BaseModel] itself, other classes and non-classes are never
    registered. *)
Theorem list_models_registers_model_classes :
  forall (members : list (string * member)),
    NoDup (keys members) ->
    list_models_from members = Spec.model_members members.
Proof.
  intros members Hnd. unfold list_models_from.
  rewrite list_models_from_fold.
  rewrite (fold_setitem_map (fun nm : string * model => nm) (Spec.model_members members) []).
  - rewrite map_id. reflexivity.
  - exact (model_members_keys_NoDup members Hnd).
  - intros; reflexivity.
Qed.

Section Registered.

Variable lower : string -> string.

(** A path segment that resolves is served from a registered collection. *)
Lemma resolved_is_registered (s : string) (T : model) :
  _model_for_collection lower s = Some T -> In (lower s) (Spec.registered_collections lower).
Proof.
  intros HT. apply model_for_collection_in_Some in HT.
  destruct HT as [name [Hin E]]. rewrite <- E. unfold Spec.registered_collections.
  apply in_map. change name with (fst (name, T)). apply in_map. exact Hin.
Qed.

Hypothesis lower_folds_ascii : Spec.folds_ascii lower.

Lemma registered_resolves (s : string) :
  In (lower s) (Spec.registered_collections lower) ->
  exists T, _model_for_collection lower s = Some T.
Proof.
  unfold Spec.registered_collections. intros Hin.
  apply in_map_iff in Hin. destruct Hin as [name [E Hin]].
  apply in_map_iff in Hin. destruct Hin as [[n T] [<- Hin]].
  exists T. apply (model_for_collection_in_found lower _ n);
    [exact (registry_names_distinct lower lower_folds_ascii) | exact Hin | exact E].
Qed.

(** Lower-casing a listed name again changes nothing. *)
Lemma registered_lower_fixed (c : string) :
  In c (Spec.registered_collections lower) -> lower c = c.
Proof.
  unfold Spec.registered_collections. intros Hc.
  apply in_map_iff in Hc. destruct Hc as [name [<- Hin]].
  rewrite (registry_lower lower lower_folds_ascii name Hin).
  rewrite lower_folds_ascii, ascii_lower_idempotent; [reflexivity|].
  rewrite ascii_lower_is_ascii. exact (registry_names_are_ascii name Hin).
Qed.

End Registered.

(** X4. For [str.lower] as it is on ASCII texts and whatever it is on the
    others: [GET /collections] lists the seven lower-cased type names,
    none twice; a path segment is served by the documents endpoints
    exactly when its lower-cased form is one of the listed names; and
    every listed name is served as it is listed. *)
Theorem listed_collections_are_served :
  forall lower : string -> string,
    Spec.folds_ascii lower ->
    list_collections lower
    = VDict [("collections",
              VList (map VStr ["application"; "compliancerequirement"; "dataasset";
                               "process"; "relationship"; "risk"; "role"]))]
    /\ list_collections lower
       = VDict [("collections", VList (map VStr (Spec.registered_collections lower)))]
    /\ NoDup (Spec.registered_collections lower)
    /\ (forall s : string,
          (exists T, _model_for_collection lower s = Some T)
          <-> In (lower s) (Spec.registered_collections lower))
    /\ (forall c : string,
          In c (Spec.registered_collections lower) ->
          exists T, _model_for_collection lower c = Some T).
Proof.
  intros lower Hlower.
  assert (Hlist : list_collections lower
                  = VDict [("collections",
                            VList (map VStr (Spec.registered_collections lower)))]).
  { unfold list_collections, Spec.registered_collections. rewrite map_map. reflexivity. }
  split; [rewrite Hlist, (registered_collections_value lower Hlower); reflexivity|].
  split; [exact Hlist|].
  split; [exact (registry_names_distinct lower Hlower)|]. split.
  - intros s. split.
    + intros [T HT]. exact (resolved_is_registered lower s T HT).
    + exact (registered_resolves lower Hlower s).
  - intros c Hc. apply (registered_resolves lower Hlower).
    rewrite (registered_lower_fixed lower Hlower c Hc). exact Hc.
Qed.

(* ===================================================================== *)
(** ** Graph: edges, bounds, reads *)
(* ===================================================================== *)

Lemma fold_add_edge (rels : list dict) (acc : list value) :
  fold_left add_edge rels acc
  = (acc ++ map edge_of (filter Spec.has_endpoints rels))%list.
Proof.
  revert acc. induction rels as [|r rels IH]; intros acc; simpl.
  - rewrite app_nil_r. reflexivity.
  - rewrite IH. unfold add_edge, Spec.has_endpoints.
    destruct (is_empty (py_str (get r "source_id")));
      destruct (is_empty (py_str (get r "target_id"))); simpl;
      try reflexivity.
    rewrite <- app_assoc. reflexivity.
Qed.

Section GraphReads.

Variable store : Type.
Variables get_documents get_documents' : string -> option Z -> M store (list dict).

Lemma graph_nodes_ext (cs : list string) (s : store) :
  (forall c l s, In c cs -> get_documents c l s = get_documents' c l s) ->
  Spec.graph_nodes store get_documents cs s = Spec.graph_nodes store get_documents' cs s.
Proof.
  revert s. induction cs as [|c cs IH]; intros s H; simpl; [reflexivity|].
  rewrite <- (H c (Some 100%Z) s (or_introl eq_refl)).
  destruct (get_documents c (Some 100%Z) s) as [[docs|e] s'].
  - rewrite (IH s') by (intros; apply H; right; assumption). reflexivity.
  - apply IH. intros; apply H; right; assumption.
Qed.

Lemma graph_nodes_invariant (P : store -> Prop) (cs : list string) (s : store) :
  (forall c l s, P s -> P (snd (get_documents c l s))) ->
  P s -> P (snd (Spec.graph_nodes store get_documents cs s)).
Proof.
  intros H. revert s. induction cs as [|c cs IH]; intros s Hs; simpl; [exact Hs|].
  specialize (H c (Some 100%Z) s Hs).
  destruct (get_documents c (Some 100%Z) s) as [[docs|e] s']; simpl in H.
  - specialize (IH s' H).
    destruct (Spec.graph_nodes store get_documents cs s') as [nodes s'']. exact IH.
  - exact (IH s' H).
Qed.

Lemma graph_nodes_length (cs : list string) (s : store) :
  (forall c n s docs s',
      get_documents c (Some n) s = (Ok docs, s') -> length docs <= Z.to_nat n) ->
  length (fst (Spec.graph_nodes store get_documents cs s)) <= 100 * length cs.
Proof.
  intros H. revert s. induction cs as [|c cs IH]; intros s; simpl; [lia|].
  destruct (get_documents c (Some 100%Z) s) as [[docs|e] s'] eqn:E.
  - specialize (IH s'). apply H in E.
    destruct (Spec.graph_nodes store get_documents cs s') as [nodes s'']. simpl in *.
    rewrite length_app, length_map.
    change (Z.to_nat 100) with 100 in E. lia.
  - specialize (IH s'). lia.
Qed.

End GraphReads.

(** X7. When the read of the relationship collection returns, the edges
    of the graph are exactly the records whose [source_id] and
    [target_id] both have a non-empty string form, one edge per record
    and in the order read: the edges are a function of the relationship
    records alone, so an edge is kept whether or not its endpoints name a
    node. *)
Theorem graph_edges_are_the_filtered_records :
  forall (store : Type) (get_documents : string -> option Z -> M store (list dict))
         (s s' : store) (rels : list dict),
    get_documents "relationship" (Some 500%Z)
      (snd (Spec.graph_nodes store get_documents core s)) = (Ok rels, s') ->
    exists nodes : list value,
      get_graph store get_documents s
      = (Ok (VDict [("nodes", VList nodes);
                    ("edges", VList (map edge_of (filter Spec.has_endpoints rels)))]), s')
      /\ length (filter Spec.has_endpoints rels) <= length rels.
Proof.
  intros store gd s s' rels H.
  eexists. split; [| apply filter_length_le].
  rewrite get_graph_run. unfold Spec.graph_edges. rewrite H. cbn [fst snd].
  rewrite fold_add_edge. reflexivity.
Qed.

(** X8. The two read handlers keep every property of the store that the
    store's read keeps: after [GET /graph] and after List, whatever they
    answer, the store satisfies each invariant it satisfied before; in
    particular a read that leaves the store alone makes both handlers
    leave it alone. *)
Theorem read_handlers_keep_store_invariants :
  forall (lower : string -> string)
         (store : Type) (get_documents : string -> option Z -> M store (list dict))
         (P : store -> Prop),
    (forall c l s, P s -> P (snd (get_documents c l s))) ->
    forall s : store,
      P s ->
      P (snd (get_graph store get_documents s))
      /\ forall collection limit,
           P (snd (get_collection_documents lower store get_documents collection limit s)).
Proof.
  intros lower store gd P H s Hs. split.
  - rewrite get_graph_run. cbn [snd].
    pose proof (graph_nodes_invariant store gd P core s H Hs) as H1.
    remember (snd (Spec.graph_nodes store gd core s)) as s1.
    unfold Spec.graph_edges.
    specialize (H "relationship" (Some 500%Z) s1 H1).
    destruct (gd "relationship" (Some 500%Z) s1) as [[rels|e] s']; exact H.
  - intros c limit. unfold get_collection_documents, bind, ret, raise.
    destruct (_model_for_collection lower c); [|exact Hs].
    specialize (H (lower c) limit s Hs).
    destruct (gd (lower c) limit s) as [[docs|e] s']; exact H.
Qed.

(** X9. The documents endpoints reach the store under the collection
    names of the registered types only: two stores whose operations agree
    on those seven collections get the same answer, and end in the same
    state, from List and from Create on every path, payload and limit. *)
Theorem documents_reach_registered_collections_only :
  forall (lower : string -> string) (store : Type)
         (get_documents get_documents' : string -> option Z -> M store (list dict))
         (create_document create_document' : string -> instance -> M store value)
         (validate_value : FieldInfo -> value -> option value)
         (str_error : ValidationError -> string),
    (forall c, In c (Spec.registered_collections lower) ->
       (forall l s, get_documents c l s = get_documents' c l s)
       /\ (forall r s, create_document c r s = create_document' c r s)) ->
    forall (collection : string) (limit : option Z) (data : dict) (s : store),
      get_collection_documents lower store get_documents collection limit s
      = get_collection_documents lower store get_documents' collection limit s
      /\ create_collection_document lower store create_document validate_value str_error
           collection data s
         = create_collection_document lower store create_document' validate_value
             str_error collection data s.
Proof.
  intros lower store gd gd' cd cd' vv se H c limit data s.
  unfold get_collection_documents, create_collection_document, bind.
  destruct (_model_for_collection lower c) as [T|] eqn:E; [|split; reflexivity].
  assert (Hc : In (lower c) (Spec.registered_collections lower)).
  { exact (resolved_is_registered lower c T E). }
  destruct (H _ Hc) as [Hgd Hcd]. rewrite Hgd. split; [reflexivity|].
  destruct (model_init vv T data); [rewrite Hcd|]; reflexivity.
Qed.

(** X10. [GET /graph] reads the five node collections and the
    relationship collection, and nothing else: two stores whose reads
    agree on these six collections yield the same graph and the same
    final state. *)
Theorem graph_reads_six_collections :
  forall (store : Type)
         (get_documents get_documents' : string -> option Z -> M store (list dict)),
    (forall c l s, In c Spec.graph_collections ->
       get_documents c l s = get_documents' c l s) ->
    forall s : store,
      get_graph store get_documents s = get_graph store get_documents' s.
Proof.
  intros store gd gd' H s. rewrite !get_graph_run.
  assert (Hn : Spec.graph_nodes store gd core s = Spec.graph_nodes store gd' core s).
  { apply graph_nodes_ext. intros c l s0 Hc. apply H.
    unfold Spec.graph_collections. apply in_or_app. left. exact Hc. }
  assert (He : forall s0, Spec.graph_edges store gd s0 = Spec.graph_edges store gd' s0).
  { intros s0. unfold Spec.graph_edges. rewrite H; [reflexivity|].
    unfold Spec.graph_collections. apply in_or_app. right. left. reflexivity. }
  rewrite Hn, He. reflexivity.
Qed.

(** X11. Over a store whose read honours the limit it is given, the graph
    has at most 500 nodes (100 for each of the five node collections) and
    at most 500 edges. *)
Theorem graph_size_is_bounded :
  forall (store : Type) (get_documents : string -> option Z -> M store (list dict)),
    (forall c n s docs s',
        get_documents c (Some n) s = (Ok docs, s') -> length docs <= Z.to_nat n) ->
    forall s : store,
      exists nodes edges : list value,
        fst (get_graph store get_documents s)
        = Ok (VDict [("nodes", VList nodes); ("edges", VList edges)])
        /\ length nodes <= 500
        /\ length edges <= 500.
Proof.
  intros store gd H s. rewrite get_graph_run. do 2 eexists.
  split; [reflexivity|]. split.
  - pose proof (graph_nodes_length store gd core s H) as Hn.
    change (100 * length core) with 500 in Hn. exact Hn.
  - remember (snd (Spec.graph_nodes store gd core s)) as s1.
    unfold Spec.graph_edges.
    destruct (gd "relationship" (Some 500%Z) s1) as [[rels|e] s'] eqn:E;
      cbn [fst length]; [|lia].
    apply H in E. rewrite fold_add_edge. cbn [app]. rewrite length_map.
    pose proof (filter_length_le Spec.has_endpoints rels).
    change (Z.to_nat 500) with 500 in E. lia.
Qed.

(* ===================================================================== *)
(** ** Serialization of a record *)
(* ===================================================================== *)

Lemma serialized_field_idempotent (kv : string * value) :
  Spec.serialized_field (Spec.serialized_field kv) = Spec.serialized_field kv.
Proof.
  destruct kv as [k v]. unfold Spec.serialized_field.
  destruct (String.eqb_spec k "_id") as [->|Hne].
  - reflexivity.
  - destruct (isoformat v) as [text|] eqn:E.
    + destruct (String.eqb_spec k "_id") as [->|_]; [contradiction | reflexivity].
    + destruct (String.eqb_spec k "_id") as [->|_]; [contradiction|].
      rewrite E. reflexivity.
Qed.

Lemma serialized_field_no_date (kv : string * value) :
  Spec.is_date (snd (Spec.serialized_field kv)) = false.
Proof.
  destruct kv as [k v]. unfold Spec.serialized_field.
  destruct (String.eqb k "_id"); [reflexivity|].
  destruct v; reflexivity.
Qed.

Lemma serialize_keys (doc : dict) : NoDup (keys doc) -> keys (serialize doc) = keys doc.
Proof.
  intros Hnd. rewrite (serialize_map doc Hnd). unfold keys. rewrite map_map.
  apply map_ext. apply serialized_field_key.
Qed.

(** X12. Serializing a record twice is serializing it once: the output of
    [serialize] is a fixed point of [serialize]. *)
Theorem serialize_is_idempotent :
  forall doc : dict,
    NoDup (keys doc) ->
    serialize (serialize doc) = serialize doc.
Proof.
  intros doc Hnd.
  assert (Hnd' : NoDup (keys (serialize doc))) by (rewrite serialize_keys; assumption).
  rewrite (serialize_map (serialize doc) Hnd'), (serialize_map doc Hnd), map_map.
  apply map_ext. apply serialized_field_idempotent.
Qed.

(** X13. A serialized record has the keys of the raw record, in the same
    order; none of its values is a date or a datetime any more; and its
    [_id], when the raw record has one, is a string. *)
Theorem serialize_keeps_keys_and_drops_dates :
  forall doc : dict,
    NoDup (keys doc) ->
    keys (serialize doc) = keys doc
    /\ Forall (fun kv => Spec.is_date (snd kv) = false) (serialize doc)
    /\ (forall v, lookup "_id" doc = Some v ->
          lookup "_id" (serialize doc) = Some (VStr (py_str v))).
Proof.
  intros doc Hnd. split; [exact (serialize_keys doc Hnd)|].
  rewrite (serialize_map doc Hnd). split.
  - apply Forall_forall. intros kv Hin. apply in_map_iff in Hin.
    destruct Hin as [kv0 [<- _]]. apply serialized_field_no_date.
  - intros v Hv. apply In_lookup.
    + unfold keys. rewrite map_map.
      erewrite map_ext; [exact Hnd | apply serialized_field_key].
    + apply lookup_In in Hv.
      change ("_id", VStr (py_str v)) with (Spec.serialized_field ("_id", v)).
      apply in_map. exact Hv.
Qed.

(* ===================================================================== *)
(** ** The further theorems at concrete inputs *)
(* ===================================================================== *)

(** A handle that lists twelve collections, the URL set and the name set
    to the empty text: ten collections are shown, and the name counts as
    not set. *)
Example diagnostic_run :
  fst (test_database Store.db (Some Sample.listing_handle) Sample.environment
         Sample.exn_text Store.empty)
  = Ok (VDict
      [("backend", VStr "✅ Running");
       ("database", VStr "✅ Connected & Working");
       ("database_url", VStr "✅ Set");
       ("database_name", VStr "❌ Not Set");
       ("connection_status", VStr "Connected");
       ("collections",
        VList (map VStr ["application"; "process"; "role"; "dataasset"; "risk";
                         "compliancerequirement"; "relationship"; "audit"; "jobs";
                         "sessions"]))]).
Proof. reflexivity. Qed.

Lemma find_only_agrees (allowed : list string) (c : string) :
  In c allowed -> forall l s, Store.find c l s = Sample.find_only allowed c l s.
Proof.
  intros Hc l s. unfold Sample.find_only.
  assert (E : existsb (String.eqb c) allowed = true).
  { apply existsb_exists. exists c. split; [exact Hc | apply String.eqb_refl]. }
  rewrite E. reflexivity.
Qed.

Lemma insert_only_agrees (allowed : list string) (c : string) :
  In c allowed -> forall r s, Store.insert c r s = Sample.insert_only allowed c r s.
Proof.
  intros Hc r s. unfold Sample.insert_only.
  assert (E : existsb (String.eqb c) allowed = true).
  { apply existsb_exists. exists c. split; [exact Hc | apply String.eqb_refl]. }
  rewrite E. reflexivity.
Qed.

Lemma find_honours_limit (c : string) (n : Z) (s : Store.db) (docs : list dict)
      (s' : Store.db) :
  Store.find c (Some n) s = (Ok docs, s') -> length docs <= Z.to_nat n.
Proof.
  unfold Store.find. destruct (Store.reachable s); [|discriminate].
  intros [= <- _]. apply firstn_le_length.
Qed.

Lemma find_is_read_only (s0 : Store.db) (c : string) (l : option Z) (s : Store.db) :
  s = s0 -> snd (Store.find c l s) = s0.
Proof.
  intros ->. unfold Store.find. destruct (Store.reachable s0); reflexivity.
Qed.


Lemma list_models_registers_model_classes_witness :
  NoDup (keys getmembers)
  /\ list_models = Spec.model_members getmembers.
Proof.
  assert (H : NoDup (keys getmembers)) by (apply distinct_NoDup; reflexivity).
  split; [exact H|].
  exact (list_models_registers_model_classes getmembers H).
Defined.

Lemma graph_edges_are_the_filtered_records_witness :
  exists nodes : list value,
    Store.graph Sample.with_sourceless
    = (Ok (VDict [("nodes", VList nodes);
                  ("edges", VList [edge_of Sample.sourceless_relationship])]),
       Sample.with_sourceless)
    /\ 1 <= 2.
Proof.
  exact (graph_edges_are_the_filtered_records Store.db Store.find
           Sample.with_sourceless Sample.with_sourceless
           [Sample.blank_source_relationship; Sample.sourceless_relationship] eq_refl).
Defined.

Lemma read_handlers_keep_store_invariants_witness :
  snd (Store.graph Sample.populated) = Sample.populated
  /\ snd (Store.list_documents "risk" (Some 1%Z) Sample.populated) = Sample.populated.
Proof.
  destruct (read_handlers_keep_store_invariants sample_lower Store.db Store.find
              (fun s => s = Sample.populated) (find_is_read_only Sample.populated)
              Sample.populated eq_refl) as [Hg Hl].
  split; [exact Hg | exact (Hl "risk" (Some 1%Z))].
Defined.

Lemma documents_reach_registered_collections_only_witness :
  Store.list_documents "Risk" (Some 100%Z) Sample.populated
  = get_collection_documents sample_lower Store.db
      (Sample.find_only (Spec.registered_collections sample_lower))
      "Risk" (Some 100%Z) Sample.populated
  /\ Store.create "Risk" [("title", VStr "X")] Sample.populated
     = create_collection_document sample_lower Store.db
         (Sample.insert_only (Spec.registered_collections sample_lower))
         strict_value Store.error_text "Risk" [("title", VStr "X")] Sample.populated.
Proof.
  exact (documents_reach_registered_collections_only sample_lower Store.db
           Store.find (Sample.find_only (Spec.registered_collections sample_lower))
           Store.insert (Sample.insert_only (Spec.registered_collections sample_lower))
           strict_value Store.error_text
           (fun c Hc => conj (find_only_agrees _ c Hc) (insert_only_agrees _ c Hc))
           "Risk" (Some 100%Z) [("title", VStr "X")] Sample.populated).
Defined.

Lemma graph_reads_six_collections_witness :
  Store.graph Sample.populated
  = get_graph Store.db (Sample.find_only Spec.graph_collections) Sample.populated.
Proof.
  exact (graph_reads_six_collections Store.db Store.find
           (Sample.find_only Spec.graph_collections)
           (fun c l s Hc => find_only_agrees _ c Hc l s) Sample.populated).
Defined.

Lemma graph_size_is_bounded_witness :
  exists nodes edges : list value,
    fst (Store.graph Sample.populated)
    = Ok (VDict [("nodes", VList nodes); ("edges", VList edges)])
    /\ length nodes <= 500
    /\ length edges <= 500.
Proof.
  exact (graph_size_is_bounded Store.db Store.find find_honours_limit Sample.populated).
Defined.

Lemma serialize_is_idempotent_witness :
  NoDup (keys Sample.risk_record)
  /\ serialize (serialize Sample.risk_record) = serialize Sample.risk_record.
Proof.
  assert (H : NoDup (keys Sample.risk_record)) by (apply distinct_NoDup; reflexivity).
  split; [exact H | exact (serialize_is_idempotent Sample.risk_record H)].
Defined.

Lemma serialize_keeps_keys_and_drops_dates_witness :
  keys (serialize Sample.risk_record)
  = ["_id"; "title"; "likelihood"; "impact"; "related_assets"; "created_at"]
  /\ lookup "_id" (serialize Sample.risk_record) = Some (VStr "65f0c0ffee01").
Proof.
  assert (H : NoDup (keys Sample.risk_record)) by (apply distinct_NoDup; reflexivity).
  destruct (serialize_keeps_keys_and_drops_dates Sample.risk_record H) as [Hk [_ Hid]].
  split; [exact Hk | exact (Hid (VObjectId "65f0c0ffee01") eq_refl)].
Defined.


Lemma listed_collections_are_served_witness :
  list_collections sample_lower
  = VDict [("collections",
            VList (map VStr ["application"; "compliancerequirement"; "dataasset";
                             "process"; "relationship"; "risk"; "role"]))]
  /\ ((exists T, _model_for_collection sample_lower Sample.kelvin_risk = Some T)
      <-> In (sample_lower Sample.kelvin_risk) (Spec.registered_collections sample_lower))
  /\ (exists T, _model_for_collection sample_lower "dataasset" = Some T).
Proof.
  destruct (listed_collections_are_served sample_lower sample_lower_folds_ascii)
    as [Hlist [_ [_ [Hiff Hself]]]].
  split; [exact Hlist|]. split; [exact (Hiff Sample.kelvin_risk)|].
  apply Hself. rewrite (registered_collections_value sample_lower sample_lower_folds_ascii).
  do 2 right. left. reflexivity.
Defined.
